(** * useDatePicker: a shallow embedding of the date-range picker hook

    Source: [src/datePicker/useDatePicker/useDatePicker.ts].

    The hook keeps seven state slices ([useState]) and exposes handlers
    that read the slices captured by the current render and queue setter
    calls.  A handler is embedded as a function from the captured
    snapshot to the list of setter and callback calls it performs, in
    program order; [run] applies the queued calls the way React does
    after the handler has returned.

    A [Date] is the time value of a valid JavaScript date (milliseconds
    since the epoch).  The calendar functions the hook imports from
    date-fns are an interface ([DateFns]); the helpers it imports from
    [./useDatePicker.utils] are section variables.

    Not embedded: the registration of the window listeners, the timing
    of [throttle] (a delivered key-down is embedded, a dropped one makes
    no call), the effect that follows [focusedDate], the input refs and
    the presentation flags of [getDateProps]. *)

From Stdlib Require Import ZArith List String Ascii Bool Lia.
Import ListNotations.
Local Open Scope Z_scope.

(* ------------------------------------------------------------------ *)
(** ** Dates, durations, intervals *)

Definition Date := Z.

(** date-fns [isAfter] and [isBefore] compare time values; so do the
    relational operators [<] and [>] on two JavaScript dates. *)
Definition isAfter (date dateToCompare : Date) : bool := dateToCompare <? date.
Definition isBefore (date dateToCompare : Date) : bool := date <? dateToCompare.

(** date-fns [Duration]; an absent field counts as zero. *)
Record Duration := mkDuration {
  years : Z; months : Z; weeks : Z; days : Z;
  hours : Z; minutes : Z; seconds : Z
}.

Record Interval := mkInterval { iv_start : Date; iv_end : Date }.

(** The calendar operations imported from date-fns.  [parse] returns
    [None] for an Invalid Date, which is what [isValid] tests. *)
Class DateFns := {
  add : Date -> Duration -> Date;
  addDays : Date -> Z -> Date;
  addWeeks : Date -> Z -> Date;
  addMonths : Date -> Z -> Date;
  eachDayOfInterval : Interval -> list Date;
  isSameDay : Date -> Date -> bool;
  isSameMonth : Date -> Date -> bool;
  format : Date -> string -> string;
  parse : string -> string -> Date -> option Date
}.

Definition isValid (date : option Date) : bool :=
  match date with Some _ => true | None => false end.

Definition isWithinInterval (date : Date) (i : Interval) : bool :=
  (iv_start i <=? date) && (date <=? iv_end i).

(* ------------------------------------------------------------------ *)
(** ** Data model *)

Module ActiveSelection.
Inductive t := start | end_ | none.

Definition eqb (a b : t) : bool :=
  match a, b with
  | start, start | end_, end_ | none, none => true
  | _, _ => false
  end.
End ActiveSelection.

Record OnDatesChangeProps := mkOnDatesChangeProps {
  oc_startDate : option Date;
  oc_endDate : option Date
}.

Record TDateRange := mkDateRange {
  dr_start : option Date;
  dr_end : option Date
}.

Record TCurrentInputValues := mkInputValues {
  civ_start : string;
  civ_end : string
}.

(** The closed set of reason tags the hook stores. *)
Inductive ErrorReason :=
| LESS_THAN_MIN_DATE
| GREATER_THAN_MAX_DATE
| BLOCKED_DATE
| VIOLATES_FIX_RANGE
| LESS_THAN_MIN_RANGE
| GREATER_THAN_MAX_RANGE
| CONTAINS_BLOCKED_DATE.

Record ValidationError := mkError { reason : ErrorReason }.

Record THoveredDate := mkHovered {
  hd_date : Date;
  hd_error : option ValidationError
}.

Record TPotentialRange := mkPotential {
  pr_range : Interval;
  pr_error : option ValidationError
}.

(** Of [TMonth] the hook reads the [date] field only. *)
Record TMonth := mkMonth { month_date : Date }.

Record TPickerMonth := mkPickerMonth {
  month : TMonth;
  isPadding : bool
}.

(** [unavailableDates?: Date[] | ((date: Date) => boolean)] *)
Inductive TUnavailableDates :=
| UnavailableList (l : list Date)
| UnavailablePredicate (f : Date -> bool).

(** The local variable [validationError] is a string, empty for no
    error; [error_of] is [validationError ? { reason } : null]. *)
Definition error_of (validationError : option ErrorReason) : option ValidationError :=
  match validationError with
  | Some r => Some (mkError r)
  | None => None
  end.

Definition is_some {A} (o : option A) : bool :=
  match o with Some _ => true | None => false end.

(* ------------------------------------------------------------------ *)
(** ** The state container and the queued calls *)

(** One field per [useState] slice of the hook. *)
Record State := mkState {
  activeMonths : list TPickerMonth;
  hoveredDate : option THoveredDate;
  focusedDate : option Date;
  activeSelection : ActiveSelection.t;
  dateRange : TDateRange;
  currentInputValues : TCurrentInputValues;
  potentialRange : option TPotentialRange
}.

(** A call a handler makes: one of the seven setters (the source spells
    the range setter [setDateRage]) or the caller's [onDatesChange].
    [setFocusedDate] takes an updater function, as in [handleKeyDown]. *)
Inductive Effect :=
| setActiveMonths (m : list TPickerMonth)
| setHoveredDate (h : option THoveredDate)
| setFocusedDate (f : option Date -> option Date)
| setActiveSelection (a : ActiveSelection.t)
| setDateRage (r : TDateRange)
| setCurrentInputValues (v : TCurrentInputValues)
| setPotentialRange (p : option TPotentialRange)
| onDatesChange (data : OnDatesChangeProps).

Definition apply_effect (s : State) (e : Effect) : State :=
  match e with
  | setActiveMonths m =>
      mkState m (hoveredDate s) (focusedDate s) (activeSelection s)
              (dateRange s) (currentInputValues s) (potentialRange s)
  | setHoveredDate h =>
      mkState (activeMonths s) h (focusedDate s) (activeSelection s)
              (dateRange s) (currentInputValues s) (potentialRange s)
  | setFocusedDate f =>
      mkState (activeMonths s) (hoveredDate s) (f (focusedDate s)) (activeSelection s)
              (dateRange s) (currentInputValues s) (potentialRange s)
  | setActiveSelection a =>
      mkState (activeMonths s) (hoveredDate s) (focusedDate s) a
              (dateRange s) (currentInputValues s) (potentialRange s)
  | setDateRage r =>
      mkState (activeMonths s) (hoveredDate s) (focusedDate s) (activeSelection s)
              r (currentInputValues s) (potentialRange s)
  | setCurrentInputValues v =>
      mkState (activeMonths s) (hoveredDate s) (focusedDate s) (activeSelection s)
              (dateRange s) v (potentialRange s)
  | setPotentialRange p =>
      mkState (activeMonths s) (hoveredDate s) (focusedDate s) (activeSelection s)
              (dateRange s) (currentInputValues s) p
  | onDatesChange _ => s
  end.

(** The state of the next render: the queued calls applied in order. *)
Definition run (s : State) (calls : list Effect) : State :=
  fold_left apply_effect calls s.

(** The arguments [onDatesChange] was invoked with, in order. *)
Fixpoint notified (calls : list Effect) : list OnDatesChangeProps :=
  match calls with
  | [] => []
  | onDatesChange data :: rest => data :: notified rest
  | _ :: rest => notified rest
  end.

(* ------------------------------------------------------------------ *)
(** ** The hook *)

Section UseDatePicker.

Context {DF : DateFns}.

(** [./typings] and [./useDatePicker.utils] are not part of the
    sources at hand: the padding policy is an opaque type, and the
    helper functions are parameters. *)
Variable TPickerMonthPadding : Type.

Record GetPickerMonthsArgs := mkGetPickerMonthsArgs {
  gp_numberOfMonths : Z;
  gp_firstDayOfWeek : Z;
  gp_startDate : option Date;
  gp_endDate : option Date;
  gp_padding : option TPickerMonthPadding
}.

Record ValidateDatesArgs := mkValidateDatesArgs {
  vd_start : option Date;
  vd_end : option Date;
  vd_isDisabled : Date -> bool;
  vd_minDate : option Date;
  vd_maxDate : option Date;
  vd_minDateRange : option Duration;
  vd_maxDateRange : option Duration
}.

Variable getPickerMonths : GetPickerMonthsArgs -> list TPickerMonth.
Variable getNextActiveMonth :
  list TPickerMonth -> Z -> Z -> option TPickerMonthPadding -> list TPickerMonth.
Variable validateDates : ValidateDatesArgs -> bool.

(** The options of the hook, after the defaults of the parameter list
    have been filled in ([None] is [null]; for [fixRange],
    [minDateRange], [maxDateRange], [initialVisibleMonth] and
    [padding] it is [undefined]).  [onDatesChange] is the [Effect] of
    that name. *)
Record UseDatePickerProps := mkProps {
  startDate : option Date;
  endDate : option Date;
  minDate : option Date;
  maxDate : option Date;
  numberOfMonths : Z;
  minDateRange : option Duration;
  maxDateRange : option Duration;
  fixRange : option Duration;
  firstDayOfWeek : Z;
  initialVisibleMonth : option Date;
  unavailableDates : TUnavailableDates;
  inputFormat : string;
  padding : option TPickerMonthPadding
}.

(** The initial values handed to the seven [useState] calls.  The
    parameter list binds [startDate] and [endDate] (default [null]);
    the body of the hook never reads them. *)
Definition initialState (_ : UseDatePickerProps) : State :=
  mkState [] None None ActiveSelection.start
          (mkDateRange None None)
          (mkInputValues EmptyString EmptyString)
          None.

Variable props : UseDatePickerProps.

Definition getInputValuesFromRange (range : TDateRange) : TCurrentInputValues :=
  {| civ_start := match dr_start range with
                  | Some d => format d (inputFormat props)
                  | None => EmptyString
                  end;
     civ_end := match dr_end range with
                | Some d => format d (inputFormat props)
                | None => EmptyString
                end |}.

Definition isDisabled (date : Date) : bool :=
  match unavailableDates props with
  | UnavailablePredicate f => f date
  | UnavailableList l => existsb (fun d => isSameDay date d) l
  end.

(** [a || b] on two optional dates. *)
Definition or_else (a b : option Date) : option Date :=
  match a with Some _ => a | None => b end.

(** The effect run once on mount ([useEffect(..., [])]). *)
Definition mountEffect (st : State) : list Effect :=
  [ setActiveMonths
      (getPickerMonths
         {| gp_numberOfMonths := numberOfMonths props;
            gp_firstDayOfWeek := firstDayOfWeek props;
            gp_startDate := or_else (dr_start (dateRange st)) (initialVisibleMonth props);
            gp_endDate := dr_end (dateRange st);
            gp_padding := padding props |});
    setCurrentInputValues (getInputValuesFromRange (dateRange st)) ].

(** The updater [handleKeyDown] passes to [setFocusedDate]: [date] is
    the focused date at the time the update is applied. *)
Definition keyDownUpdater (st : State) (key : string) (date : option Date)
  : option Date :=
  match date with
  | None =>
      match filter (fun m => negb (isPadding m)) (activeMonths st) with
      | m :: _ => Some (month_date (month m))
      | [] => None
      end
  | Some date =>
      if String.eqb key "ArrowRight" then Some (addDays date 1)
      else if String.eqb key "ArrowLeft" then Some (addDays date (-1))
      else if String.eqb key "ArrowUp" then Some (addWeeks date (-1))
      else if String.eqb key "ArrowDown" then Some (addWeeks date 1)
      else if String.eqb key "PageUp" then Some (addMonths date (-1))
      else if String.eqb key "PageDown" then Some (addMonths date 1)
      else None
  end.

(** The function wrapped by [throttle]: what one delivered key-down
    event does. *)
Definition handleKeyDown (st : State) (key : string) : list Effect :=
  [ setFocusedDate (keyDownUpdater st key) ].

Definition reset : list Effect := [ setDateRage (mkDateRange None None) ].

Definition isMonthVisible (st : State) (d : option Date) : bool :=
  match d with
  | Some d => existsb (fun m => isSameMonth (month_date (month m)) d) (activeMonths st)
  | None => false
  end.

(** The local [isValid] of [onDateSelect]: the call of [validateDates]
    with [...range] spread into the constraint object. *)
Definition commitIsValid (range : TDateRange) : bool :=
  validateDates
    {| vd_start := dr_start range;
       vd_end := dr_end range;
       vd_isDisabled := isDisabled;
       vd_minDate := minDate props;
       vd_maxDate := maxDate props;
       vd_minDateRange := minDateRange props;
       vd_maxDateRange := maxDateRange props |}.

Definition onDateSelect (st : State) (range : TDateRange) (sync : bool)
  : list Effect :=
  if commitIsValid range then
    let isStartDateVisible := isMonthVisible st (dr_start range) in
    let isEndDateVisible := isMonthVisible st (dr_end range) in
    [ setDateRage range;
      onDatesChange {| oc_startDate := dr_start range;
                       oc_endDate := dr_end range |} ]
    ++ (if (negb isStartDateVisible
              && ActiveSelection.eqb (activeSelection st) ActiveSelection.start)
           || (negb isEndDateVisible
                 && ActiveSelection.eqb (activeSelection st) ActiveSelection.end_)
        then [ setActiveMonths
                 (getPickerMonths
                    {| gp_numberOfMonths := numberOfMonths props;
                       gp_firstDayOfWeek := firstDayOfWeek props;
                       gp_startDate := or_else (dr_start range) (initialVisibleMonth props);
                       gp_endDate := dr_end range;
                       gp_padding := padding props |}) ]
        else [])
    ++ (if sync then [ setCurrentInputValues (getInputValuesFromRange range) ] else [])
    ++ [ if ActiveSelection.eqb (activeSelection st) ActiveSelection.end_
            && is_some (dr_start range)
         then setActiveSelection ActiveSelection.none
         else setActiveSelection ActiveSelection.end_ ]
  else [].

(** The interval [calculatePotentialRange] builds from the hovered
    date: the two assignments to the local [range], in order. *)
Definition hoverInterval (st : State) (date : Date) : option Interval :=
  let startDate := dr_start (dateRange st) in
  let endDate := dr_end (dateRange st) in
  let range :=
    match startDate with
    | Some s =>
        if ActiveSelection.eqb (activeSelection st) ActiveSelection.end_ && (s <? date)
        then Some (mkInterval s date) else None
    | None => None
    end in
  match endDate with
  | Some e =>
      if ActiveSelection.eqb (activeSelection st) ActiveSelection.start && (e >? date)
      then Some (mkInterval date e) else range
  | None => range
  end.

(** The three checks on a formed interval, on the local
    [validationError]. *)
Definition rangeError (range : Interval) : option ErrorReason :=
  let v1 :=
    match minDateRange props with
    | Some d =>
        if negb (isAfter (iv_end range) (add (iv_start range) d))
        then Some LESS_THAN_MIN_RANGE else None
    | None => None
    end in
  let v2 :=
    match v1, maxDateRange props with
    | None, Some d =>
        if isAfter (iv_end range) (add (iv_start range) d)
        then Some GREATER_THAN_MAX_RANGE else v1
    | _, _ => v1
    end in
  match v2 with
  | None =>
      if negb (existsb isDisabled (eachDayOfInterval range))
      then Some CONTAINS_BLOCKED_DATE else v2
  | Some _ => v2
  end.

Definition calculatePotentialRange (st : State) (date : option Date) : list Effect :=
  match date with
  | None => [ setPotentialRange None ]
  | Some date =>
      let startDate := dr_start (dateRange st) in
      let endDate := dr_end (dateRange st) in
      if (negb (is_some startDate) && negb (is_some endDate))
         || ActiveSelection.eqb (activeSelection st) ActiveSelection.none
      then [ setPotentialRange None ]
      else
        match hoverInterval st date with
        | None => [ setPotentialRange None ]
        | Some range =>
            [ setPotentialRange
                (Some {| pr_range := range;
                         pr_error := error_of (rangeError range) |}) ]
        end
  end.

(** [useEffect(() => calculatePotentialRange(hoveredDate?.date), [hoveredDate])] *)
Definition hoveredDateEffect (st : State) : list Effect :=
  calculatePotentialRange st
    (match hoveredDate st with Some h => Some (hd_date h) | None => None end).

(** The local [validationError] of [onDateHover] after its four
    checks, in the order the source runs them. *)
Definition hoverError (st : State) (date : Date) : option ErrorReason :=
  let startDate := dr_start (dateRange st) in
  let endDate := dr_end (dateRange st) in
  let v1 := if isDisabled date then Some BLOCKED_DATE else None in
  let v2 :=
    match minDate props with
    | Some m => if isBefore date (addDays m (-1)) then Some LESS_THAN_MIN_DATE else v1
    | None => v1
    end in
  let v3 :=
    match v2, maxDate props with
    | None, Some m => if isAfter date m then Some GREATER_THAN_MAX_DATE else v2
    | _, _ => v2
    end in
  match v3, fixRange props with
  | None, Some fr =>
      let hasError :=
        match startDate with Some s => isAfter date (add s fr) | None => false end
        || match endDate with Some e => isAfter date (add e fr) | None => false end in
      if hasError then Some VIOLATES_FIX_RANGE else v3
  | _, _ => v3
  end.

Definition onDateHover (st : State) (date : Date) : list Effect :=
  [ setHoveredDate (Some {| hd_date := date; hd_error := error_of (hoverError st date) |}) ].

Definition onMouseLeave : list Effect := [ setHoveredDate None ].

Definition movePickerBy (st : State) (vector : Z) : list Effect :=
  [ setActiveMonths
      (getNextActiveMonth (activeMonths st) vector (firstDayOfWeek props) (padding props)) ].

Definition goToDate (date : Date) : list Effect :=
  [ setActiveMonths
      (getPickerMonths
         {| gp_numberOfMonths := numberOfMonths props;
            gp_firstDayOfWeek := firstDayOfWeek props;
            gp_startDate := Some date;
            gp_endDate := None;
            gp_padding := None |});
    setFocusedDate (fun _ => None) ].

(** [onDateClick] of [getDateProps]: [{ ...dateRange, start: date }]
    keeps the other endpoint, [{ start: date }] has no end. *)
Definition onDateClick (st : State) (date : Date) : list Effect :=
  match activeSelection st with
  | ActiveSelection.start =>
      onDateSelect st (mkDateRange (Some date) (dr_end (dateRange st))) true
  | ActiveSelection.end_ =>
      onDateSelect st (mkDateRange (dr_start (dateRange st)) (Some date)) true
  | ActiveSelection.none =>
      setActiveSelection ActiveSelection.start
        :: onDateSelect st (mkDateRange (Some date) None) true
  end.

(** The handlers of [getInputProps(type)]. *)
Definition onInputClick (type : ActiveSelection.t) : list Effect :=
  [ setActiveSelection type ].

Definition onBlur (st : State) : list Effect :=
  [ setCurrentInputValues (getInputValuesFromRange (dateRange st)) ].

(** [value] is [e.target.value]; [now] is the [new Date()] handed to
    [parse] as its reference date. *)
Definition onChange (st : State) (type : ActiveSelection.t) (value : string) (now : Date)
  : list Effect :=
  setCurrentInputValues
    {| civ_start := if ActiveSelection.eqb type ActiveSelection.start
                    then value else civ_start (currentInputValues st);
       civ_end := if ActiveSelection.eqb type ActiveSelection.end_
                  then value else civ_end (currentInputValues st) |}
  :: let date := parse value (inputFormat props) now in
     if negb (isValid date) then []
     else
       match date with
       | None => []
       | Some date =>
           if ActiveSelection.eqb type ActiveSelection.start
           then onDateSelect st (mkDateRange (Some date) (dr_end (dateRange st))) false
           else onDateSelect st (mkDateRange (dr_start (dateRange st)) (Some date)) false
       end.

Definition inputValue (st : State) (type : ActiveSelection.t) : string :=
  if ActiveSelection.eqb type ActiveSelection.start
  then civ_start (currentInputValues st)
  else civ_end (currentInputValues st).

(** [isWithinPotentialRange]: [potentialRange && isWithinInterval(...)]
    is [undefined] ([None]) without a preview.  The interval test is the
    one of date-fns on an interval whose start is not after its end. *)
Definition isWithinPotentialRange (st : State) (date : Date) : option bool :=
  match potentialRange st with
  | Some p => Some (isWithinInterval date (pr_range p))
  | None => None
  end.

Definition isStartDate (st : State) (date : Date) : bool :=
  match dr_start (dateRange st) with
  | Some s => isSameDay date s
  | None => false
  end.

Definition isEndDate (st : State) (date : Date) : bool :=
  match dr_end (dateRange st) with
  | Some e => isSameDay date e
  | None => false
  end.

Definition isDateFocused (st : State) (date : Date) : bool :=
  match focusedDate st with
  | Some f => isSameDay date f
  | None => false
  end.

(** The effect that follows [focusedDate] ([useEffect(..., [focusedDate])]).
    [months[0].month.date] raises a [TypeError] when no active month is
    a non-padding one: that outcome is [None]. *)
Definition focusedDateEffect (st : State) : option (list Effect) :=
  match focusedDate st with
  | None => Some []
  | Some focused =>
      let months := filter (fun m => negb (isPadding m)) (activeMonths st) in
      match months with
      | [] => None
      | first :: _ =>
          let leftBoundary := month_date (month first) in
          let rightBoundary := month_date (month (last months first)) in
          Some
            ((if focused <? leftBoundary
              then [ setActiveMonths
                       (getNextActiveMonth (activeMonths st) (-1)
                          (firstDayOfWeek props) (padding props)) ]
              else [])
             ++ (if focused >? rightBoundary
                 then [ setActiveMonths
                          (getNextActiveMonth (activeMonths st) 1
                             (firstDayOfWeek props) (padding props)) ]
                 else [])
             ++ (if ActiveSelection.eqb (activeSelection st) ActiveSelection.start
                 then [ setCurrentInputValues
                          (getInputValuesFromRange (mkDateRange (Some focused) None)) ]
                 else [])
             ++ (if ActiveSelection.eqb (activeSelection st) ActiveSelection.end_
                 then [ setCurrentInputValues
                          (getInputValuesFromRange (mkDateRange None (Some focused))) ]
                 else []))
      end
  end.

End UseDatePicker.

Arguments mkProps {TPickerMonthPadding}.
Arguments startDate {TPickerMonthPadding}.
Arguments endDate {TPickerMonthPadding}.
Arguments minDate {TPickerMonthPadding}.
Arguments maxDate {TPickerMonthPadding}.
Arguments numberOfMonths {TPickerMonthPadding}.
Arguments minDateRange {TPickerMonthPadding}.
Arguments maxDateRange {TPickerMonthPadding}.
Arguments fixRange {TPickerMonthPadding}.
Arguments firstDayOfWeek {TPickerMonthPadding}.
Arguments initialVisibleMonth {TPickerMonthPadding}.
Arguments unavailableDates {TPickerMonthPadding}.
Arguments inputFormat {TPickerMonthPadding}.
Arguments padding {TPickerMonthPadding}.
Arguments initialState {TPickerMonthPadding}.
Arguments getInputValuesFromRange {DF TPickerMonthPadding}.
Arguments isDisabled {DF TPickerMonthPadding}.
Arguments mountEffect {DF TPickerMonthPadding}.
Arguments keyDownUpdater {DF}.
Arguments handleKeyDown {DF}.
Arguments isMonthVisible {DF}.
Arguments commitIsValid {DF TPickerMonthPadding}.
Arguments onDateSelect {DF TPickerMonthPadding}.
Arguments hoverInterval st date : assert.
Arguments rangeError {DF TPickerMonthPadding}.
Arguments calculatePotentialRange {DF TPickerMonthPadding}.
Arguments hoveredDateEffect {DF TPickerMonthPadding}.
Arguments hoverError {DF TPickerMonthPadding}.
Arguments onDateHover {DF TPickerMonthPadding}.
Arguments movePickerBy {TPickerMonthPadding}.
Arguments goToDate {TPickerMonthPadding}.
Arguments onDateClick {DF TPickerMonthPadding}.
Arguments onBlur {DF TPickerMonthPadding}.
Arguments onChange {DF TPickerMonthPadding}.
Arguments isStartDate {DF}.
Arguments isEndDate {DF}.
Arguments isDateFocused {DF}.
Arguments focusedDateEffect {DF TPickerMonthPadding}.

(* ------------------------------------------------------------------ *)
(** ** The specification's side

    Definitions that follow the words of the specification, to be
    compared with the hook. *)

Section Specification.

Context {DF : DateFns}.
Context {TPickerMonthPadding : Type}.
Variable props : UseDatePickerProps TPickerMonthPadding.

(** *** Initial state (spec 4.2) *)

(** "possibly pre-seeded from caller-supplied initial start/end" *)
Definition seededRange : TDateRange :=
  mkDateRange (startDate props) (endDate props).

(** "if a start exists with no end, initial state is picking-end;
    otherwise picking-start" *)
Definition seededSelection : ActiveSelection.t :=
  match startDate props, endDate props with
  | Some _, None => ActiveSelection.end_
  | _, _ => ActiveSelection.start
  end.

(** *** The rules of the Range Validator (spec 4.1), as conditions *)

(** Rule 1, with the one-day-exclusive lower bound. *)
Definition lessThanMinDate (date : Date) : bool :=
  match minDate props with
  | Some m => isBefore date (addDays m (-1))
  | None => false
  end.

(** Rule 2. *)
Definition greaterThanMaxDate (date : Date) : bool :=
  match maxDate props with
  | Some m => isAfter date m
  | None => false
  end.

(** Rule 3 is [isDisabled props date]. *)

(** Rule 4, the side the hook tests: later than a committed endpoint
    plus [fixRange]. *)
Definition afterFixRange (range : TDateRange) (date : Date) : bool :=
  match fixRange props with
  | Some fr =>
      match dr_start range with Some s => isAfter date (add s fr) | None => false end
      || match dr_end range with Some e => isAfter date (add e fr) | None => false end
  | None => false
  end.

Definition negateDuration (d : Duration) : Duration :=
  mkDuration (- years d) (- months d) (- weeks d) (- days d)
             (- hours d) (- minutes d) (- seconds d).

(** Rule 4, the other side: earlier than a committed endpoint minus
    [fixRange]. *)
Definition beforeFixRange (range : TDateRange) (date : Date) : bool :=
  match fixRange props with
  | Some fr =>
      match dr_start range with
      | Some s => isBefore date (add s (negateDuration fr))
      | None => false
      end
      || match dr_end range with
         | Some e => isBefore date (add e (negateDuration fr))
         | None => false
         end
  | None => false
  end.

(** "first match wins": the reason of the first rule whose condition
    holds. *)
Fixpoint firstMatch (rules : list (bool * ErrorReason)) : option ErrorReason :=
  match rules with
  | [] => None
  | (true, r) :: _ => Some r
  | (false, _) :: rest => firstMatch rest
  end.

(** Rules 1 to 4 in the order the specification lists them. *)
Definition rulesInSpecOrder (range : TDateRange) (date : Date)
  : list (bool * ErrorReason) :=
  [ (lessThanMinDate date, LESS_THAN_MIN_DATE);
    (greaterThanMaxDate date, GREATER_THAN_MAX_DATE);
    (isDisabled props date, BLOCKED_DATE);
    (afterFixRange range date, VIOLATES_FIX_RANGE) ].

(** The same rules, with the blocked-date rule before the
    maximum-date rule. *)
Definition rulesInHookOrder (range : TDateRange) (date : Date)
  : list (bool * ErrorReason) :=
  [ (lessThanMinDate date, LESS_THAN_MIN_DATE);
    (isDisabled props date, BLOCKED_DATE);
    (greaterThanMaxDate date, GREATER_THAN_MAX_DATE);
    (afterFixRange range date, VIOLATES_FIX_RANGE) ].

(** Rule 5, the last check: "any day inside the (inclusive) interval
    matches the blocked-date predicate". *)
Definition containsBlockedDate (range : Interval) : bool :=
  existsb (isDisabled props) (eachDayOfInterval range).

(** The first two checks of rule 5 pass on [range]. *)
Definition passesRangeLimits (range : Interval) : bool :=
  match minDateRange props with
  | Some d => isAfter (iv_end range) (add (iv_start range) d)
  | None => true
  end
  && match maxDateRange props with
     | Some d => negb (isAfter (iv_end range) (add (iv_start range) d))
     | None => true
     end.

(** Modelled from the spec: [validateDates] of [./useDatePicker.utils],
    the commit gate.  "A range with no endpoints, or a single endpoint
    with no opposing endpoint yet, is always valid for commit purposes";
    a range with both endpoints is rejected when its start is after its
    end or when it violates a rule: an endpoint before the minimum date
    or after the maximum date or blocked, a span not strictly greater
    than [minDateRange] or strictly greater than [maxDateRange], or a
    blocked day inside the inclusive interval.  The hook hands the gate
    neither [fixRange] nor the previously committed range, so the gate
    has no fixed-range rule. *)
Definition validateDatesSpec (args : ValidateDatesArgs) : bool :=
  match vd_start args, vd_end args with
  | Some s, Some e =>
      let tooEarly d :=
        match vd_minDate args with
        | Some m => isBefore d (addDays m (-1))
        | None => false
        end in
      let tooLate d :=
        match vd_maxDate args with
        | Some m => isAfter d m
        | None => false
        end in
      (s <=? e)
      && negb (tooEarly s || tooEarly e)
      && negb (tooLate s || tooLate e)
      && negb (vd_isDisabled args s || vd_isDisabled args e)
      && match vd_minDateRange args with
         | Some d => isAfter e (add s d)
         | None => true
         end
      && match vd_maxDateRange args with
         | Some d => negb (isAfter e (add s d))
         | None => true
         end
      && negb (existsb (vd_isDisabled args) (eachDayOfInterval (mkInterval s e)))
  | _, _ => true
  end.

(** *** Hover preview (spec 4.3) *)

(** "the hovered date lies strictly beyond the committed endpoint in the
    direction that would form a non-degenerate interval", for the
    endpoint opposite to the active selection. *)
Definition hoverBeyondEndpoint (st : State) (date : Date) : bool :=
  match activeSelection st with
  | ActiveSelection.end_ =>
      match dr_start (dateRange st) with Some s => s <? date | None => false end
  | ActiveSelection.start =>
      match dr_end (dateRange st) with Some e => date <? e | None => false end
  | ActiveSelection.none => false
  end.

(** The interval the preview spans when it is formed. *)
Definition previewInterval (st : State) (date : Date) : Interval :=
  match activeSelection st, dr_start (dateRange st), dr_end (dateRange st) with
  | ActiveSelection.end_, Some s, _ => mkInterval s date
  | ActiveSelection.start, _, Some e => mkInterval date e
  | _, _, _ => mkInterval date date
  end.

(** *** Text synchronisation (spec 4.6) *)

(** "textToRange(text, format) -> parsed Date | invalid", per field: the
    [parse] and [isValid] steps of [onChange]. *)
Definition textToDate (text : string) (now : Date) : option Date :=
  let date := parse text (inputFormat props) now in
  if isValid date then date else None.

Definition textToRange (text : TCurrentInputValues) (now : Date) : TDateRange :=
  mkDateRange (textToDate (civ_start text) now) (textToDate (civ_end text) now).

(** The formatted text of a date parses back to the date. *)
Definition parsesBack (d : Date) (now : Date) : Prop :=
  parse (format d (inputFormat props)) (inputFormat props) now = Some d.

(** Spec 8, round trip: the texts of the formatted range parse back to
    the range. *)
Definition textRoundTrips (range : TDateRange) (now : Date) : Prop :=
  textToRange (getInputValuesFromRange props range) now = range.

(** *** Four statements of the specification, as it words them *)

(** Spec 3 and 4.2: the committed range starts out seeded from the
    supplied start and end, and the selection targets the end exactly
    when a start is supplied without an end. *)
Definition initialStateSeeded : Prop :=
  dateRange (initialState props) = seededRange
  /\ activeSelection (initialState props) = seededSelection.

(** Spec 4.1 and 4.3: the error of a hovered date is the first match of
    rules 1, 2, 3, 4 in that order. *)
Definition hoverFollowsSpecOrder (st : State) (date : Date) : Prop :=
  hoverError props st date = firstMatch (rulesInSpecOrder (dateRange st) date).

(** Spec 4.1, rule 4: with no earlier rule matching, a date beyond a
    committed endpoint by more than [fixRange], on either side, is
    rejected. *)
Definition fixRangeRejectsBothSides (st : State) (date : Date) : Prop :=
  lessThanMinDate date = false ->
  greaterThanMaxDate date = false ->
  isDisabled props date = false ->
  afterFixRange (dateRange st) date || beforeFixRange (dateRange st) date = true ->
  hoverError props st date = Some VIOLATES_FIX_RANGE.

(** Spec 4.1, rule 5: on an interval that passes the two range limits
    the error is [CONTAINS_BLOCKED_DATE] exactly when a day of the
    interval is blocked, and there is no error otherwise. *)
Definition flagsBlockedInterval (range : Interval) : Prop :=
  passesRangeLimits range = true ->
  rangeError props range =
    if containsBlockedDate range then Some CONTAINS_BLOCKED_DATE else None.

End Specification.

(** *** Keyboard (spec 4.4) *)

(** The six navigation keys. *)
Definition navigationKeys : list string :=
  [ "ArrowRight"; "ArrowLeft"; "ArrowUp"; "ArrowDown"; "PageUp"; "PageDown" ]%string.

Definition isNavigationKey (key : string) : bool :=
  existsb (String.eqb key) navigationKeys.

(* ------------------------------------------------------------------ *)
(** ** Conditions and derived values used to state further properties *)

Section Conditions.

Context {DF : DateFns}.
Context {TPickerMonthPadding : Type}.
Variable props : UseDatePickerProps TPickerMonthPadding.

(** The range a click on [date] submits to [onDateSelect]. *)
Definition clickedRange (st : State) (date : Date) : TDateRange :=
  match activeSelection st with
  | ActiveSelection.start => mkDateRange (Some date) (dr_end (dateRange st))
  | ActiveSelection.end_ => mkDateRange (dr_start (dateRange st)) (Some date)
  | ActiveSelection.none => mkDateRange (Some date) None
  end.

(** The condition under which [onDateSelect] recomputes the active
    months, the months it then stores, and the selection it moves to. *)
Definition rebuildsWindow (st : State) (range : TDateRange) : bool :=
  (negb (isMonthVisible st (dr_start range))
     && ActiveSelection.eqb (activeSelection st) ActiveSelection.start)
  || (negb (isMonthVisible st (dr_end range))
        && ActiveSelection.eqb (activeSelection st) ActiveSelection.end_).

Definition rebuiltWindow
  (getPickerMonths : GetPickerMonthsArgs TPickerMonthPadding -> list TPickerMonth)
  (range : TDateRange) : list TPickerMonth :=
  getPickerMonths
    {| gp_numberOfMonths := numberOfMonths props;
       gp_firstDayOfWeek := firstDayOfWeek props;
       gp_startDate := or_else (dr_start range) (initialVisibleMonth props);
       gp_endDate := dr_end range;
       gp_padding := padding props |}.

Definition nextSelection (st : State) (range : TDateRange) : ActiveSelection.t :=
  if ActiveSelection.eqb (activeSelection st) ActiveSelection.end_
     && is_some (dr_start range)
  then ActiveSelection.none else ActiveSelection.end_.

(** The first and the second check of [calculatePotentialRange] fail. *)
Definition belowMinRange (range : Interval) : bool :=
  match minDateRange props with
  | Some d => negb (isAfter (iv_end range) (add (iv_start range) d))
  | None => false
  end.

Definition aboveMaxRange (range : Interval) : bool :=
  match maxDateRange props with
  | Some d => isAfter (iv_end range) (add (iv_start range) d)
  | None => false
  end.

(** The three checks on a preview as first-match rules; the third one
    holds when no day of the interval is unavailable. *)
Definition previewRules (range : Interval) : list (bool * ErrorReason) :=
  [ (belowMinRange range, LESS_THAN_MIN_RANGE);
    (aboveMaxRange range, GREATER_THAN_MAX_RANGE);
    (negb (containsBlockedDate props range), CONTAINS_BLOCKED_DATE) ].

(** The same options with another [fixRange]. *)
Definition withFixRange (fr : option Duration) : UseDatePickerProps TPickerMonthPadding :=
  mkProps (startDate props) (endDate props) (minDate props) (maxDate props)
          (numberOfMonths props) (minDateRange props) (maxDateRange props) fr
          (firstDayOfWeek props) (initialVisibleMonth props)
          (unavailableDates props) (inputFormat props) (padding props).

End Conditions.

(** The active months that are not padding, in order. *)
Definition selectableMonths (st : State) : list TPickerMonth :=
  filter (fun m => negb (isPadding m)) (activeMonths st).

(** The text a field shows after [value] was typed into the field of
    [type]. *)
Definition typedInto (st : State) (type : ActiveSelection.t) (value : string)
  : TCurrentInputValues :=
  {| civ_start := if ActiveSelection.eqb type ActiveSelection.start
                  then value else civ_start (currentInputValues st);
     civ_end := if ActiveSelection.eqb type ActiveSelection.end_
                then value else civ_end (currentInputValues st) |}.

(* ------------------------------------------------------------------ *)
(** ** A reference calendar: date-fns in the UTC time zone

    An instance of [DateFns] for a host whose local time zone is UTC
    (no offset, no daylight saving), on the proleptic Gregorian
    calendar.  [format] and [parse] read patterns built from the tokens
    [dd], [MM] and [yyyy]; every other character of a pattern stands for
    itself. *)

Module UTC.

Definition msPerDay : Z := 86400000.

Definition dayNumber (d : Date) : Z := d / msPerDay.
Definition timeOfDay (d : Date) : Z := d mod msPerDay.

(** Days since 1970-01-01 of the civil date [y]-[m]-[d]. *)
Definition daysFromCivil (y m d : Z) : Z :=
  let y' := if m <=? 2 then y - 1 else y in
  let era := y' / 400 in
  let yoe := y' - era * 400 in
  let mp := (m + 9) mod 12 in
  let doy := (153 * mp + 2) / 5 + d - 1 in
  let doe := yoe * 365 + yoe / 4 - yoe / 100 + doy in
  era * 146097 + doe - 719468.

(** Year, month (1..12) and day of month of a day number. *)
Definition civilFromDays (z : Z) : Z * Z * Z :=
  let z' := z + 719468 in
  let era := z' / 146097 in
  let doe := z' - era * 146097 in
  let yoe := (doe - doe / 1460 + doe / 36524 - doe / 146096) / 365 in
  let doy := doe - (365 * yoe + yoe / 4 - yoe / 100) in
  let mp := (5 * doy + 2) / 153 in
  let d := doy - (153 * mp + 2) / 5 + 1 in
  let m := if mp <? 10 then mp + 3 else mp - 9 in
  let y := yoe + era * 400 in
  (if m <=? 2 then y + 1 else y, m, d).

Definition utc (y m d : Z) : Date := daysFromCivil y m d * msPerDay.

Definition daysInMonth (y m : Z) : Z :=
  if m =? 12 then daysFromCivil (y + 1) 1 1 - daysFromCivil y 12 1
  else daysFromCivil y (m + 1) 1 - daysFromCivil y m 1.

Definition addDays (date : Date) (amount : Z) : Date := date + amount * msPerDay.

Definition addWeeks (date : Date) (amount : Z) : Date := addDays date (amount * 7).

(** The day of the month is kept, or lowered to the last day of the
    target month; the time of day is kept. *)
Definition addMonths (date : Date) (amount : Z) : Date :=
  let '(y, m, d) := civilFromDays (dayNumber date) in
  let total := y * 12 + (m - 1) + amount in
  let y' := total / 12 in
  let m' := total mod 12 + 1 in
  utc y' m' (Z.min d (daysInMonth y' m')) + timeOfDay date.

Definition add (date : Date) (duration : Duration) : Date :=
  let dateWithMonths := addMonths date (months duration + years duration * 12) in
  let dateWithDays := addDays dateWithMonths (days duration + weeks duration * 7) in
  let minutesToAdd := minutes duration + hours duration * 60 in
  let secondsToAdd := seconds duration + minutesToAdd * 60 in
  dateWithDays + secondsToAdd * 1000.

(** The start of every day from the day of [start] on that is not after
    [end]; date-fns raises a [RangeError] when [start] is after [end],
    which is the empty list here. *)
Definition eachDayOfInterval (i : Interval) : list Date :=
  if iv_end i <? iv_start i then []
  else
    let first := dayNumber (iv_start i) in
    map (fun k => (first + Z.of_nat k) * msPerDay)
        (seq 0 (Z.to_nat (dayNumber (iv_end i) - first + 1))).

Definition isSameDay (a b : Date) : bool := dayNumber a =? dayNumber b.

Definition isSameMonth (a b : Date) : bool :=
  let '(ya, ma, _) := civilFromDays (dayNumber a) in
  let '(yb, mb, _) := civilFromDays (dayNumber b) in
  (ya =? yb) && (ma =? mb).

(** *** Patterns *)

Inductive Token := T_dd | T_MM | T_yyyy | T_literal (c : ascii).

Fixpoint tokens (pattern : string) : list Token :=
  match pattern with
  | String "d" (String "d" rest) => T_dd :: tokens rest
  | String "M" (String "M" rest) => T_MM :: tokens rest
  | String "y" (String "y" (String "y" (String "y" rest))) => T_yyyy :: tokens rest
  | String c rest => T_literal c :: tokens rest
  | EmptyString => []
  end.

Definition digit (n : Z) : ascii := ascii_of_nat (48 + Z.to_nat (n mod 10)).

(** [n] as [width] decimal digits, zero padded. *)
Fixpoint digits (width : nat) (n : Z) (acc : string) : string :=
  match width with
  | O => acc
  | S w => digits w (n / 10) (String (digit n) acc)
  end.

(** [n] in decimal, without padding; [fuel] bounds the number of
    digits. *)
Fixpoint decimal (fuel : nat) (n : Z) (acc : string) : string :=
  match fuel with
  | O => acc
  | S fuel' =>
      if n / 10 =? 0 then String (digit n) acc
      else decimal fuel' (n / 10) (String (digit n) acc)
  end.

(** The token [yyyy] prints the year of the era (year 0 is 1, year -1
    is 2) with at least four digits. *)
Definition yearDigits (y : Z) (acc : string) : string :=
  let year := if 0 <? y then y else 1 - y in
  if year <? 10000 then digits 4 year acc
  else decimal (S (Z.to_nat (Z.log2 year))) year acc.

Fixpoint formatTokens (ts : list Token) (y m d : Z) : string :=
  match ts with
  | [] => EmptyString
  | T_dd :: rest => digits 2 d (formatTokens rest y m d)
  | T_MM :: rest => digits 2 m (formatTokens rest y m d)
  | T_yyyy :: rest => yearDigits y (formatTokens rest y m d)
  | T_literal c :: rest => String c (formatTokens rest y m d)
  end.

Definition format (date : Date) (pattern : string) : string :=
  let '(y, m, d) := civilFromDays (dayNumber date) in
  formatTokens (tokens pattern) y m d.

Definition digitValue (c : ascii) : option Z :=
  let n := Z.of_nat (nat_of_ascii c) in
  if (48 <=? n) && (n <=? 57) then Some (n - 48) else None.

(** Reads one to [width] leading decimal digits: the value read so far
    in [acc], the number of digits read in [count]. *)
Fixpoint readDigits (width : nat) (s : string) (acc : Z) (count : nat)
  : option (Z * string) :=
  match width, s with
  | S w, String c rest =>
      match digitValue c with
      | Some v => readDigits w rest (acc * 10 + v) (S count)
      | None => match count with O => None | S _ => Some (acc, s) end
      end
  | _, _ => match count with O => None | S _ => Some (acc, s) end
  end.

(** The white space of the ASCII range: space, tab, line feed,
    vertical tab, form feed, carriage return. *)
Definition isWhitespace (c : ascii) : bool :=
  let n := Z.of_nat (nat_of_ascii c) in
  (n =? 32) || ((9 <=? n) && (n <=? 13)).

Fixpoint onlyWhitespace (s : string) : bool :=
  match s with
  | EmptyString => true
  | String c rest => isWhitespace c && onlyWhitespace rest
  end.

(** The fields a text gives for the tokens of a pattern. *)
Record Parsed := mkParsed {
  p_year : option Z; p_month : option Z; p_day : option Z
}.

(** After the last token the text may go on with white space only. *)
Fixpoint parseTokens (ts : list Token) (s : string) (acc : Parsed) : option Parsed :=
  match ts with
  | [] => if onlyWhitespace s then Some acc else None
  | T_dd :: rest =>
      match readDigits 2 s 0 O with
      | Some (v, s') => parseTokens rest s' (mkParsed (p_year acc) (p_month acc) (Some v))
      | None => None
      end
  | T_MM :: rest =>
      match readDigits 2 s 0 O with
      | Some (v, s') => parseTokens rest s' (mkParsed (p_year acc) (Some v) (p_day acc))
      | None => None
      end
  | T_yyyy :: rest =>
      match readDigits 4 s 0 O with
      | Some (v, s') => parseTokens rest s' (mkParsed (Some v) (p_month acc) (p_day acc))
      | None => None
      end
  | T_literal c :: rest =>
      match s with
      | String c' s' => if Ascii.eqb c c' then parseTokens rest s' acc else None
      | EmptyString => None
      end
  end.

(** Fields the pattern does not name come from the reference date; a
    parsed year resets month and day to 1, a parsed month resets the day
    to 1, and any parsed field resets the time of day.  A parsed year
    must be positive.  Under the empty pattern the empty text is the
    reference date and every other text is invalid. *)
Definition parse (dateString pattern : string) (referenceDate : Date) : option Date :=
  match pattern with
  | EmptyString =>
      match dateString with
      | EmptyString => Some referenceDate
      | _ => None
      end
  | _ =>
      match parseTokens (tokens pattern) dateString (mkParsed None None None) with
      | None => None
      | Some (mkParsed None None None) => Some referenceDate
      | Some (mkParsed py pm pd) =>
          let reference := civilFromDays (dayNumber referenceDate) in
          let y := match py with Some y => y | None => fst (fst reference) end in
          let m := match pm, py with
                   | Some m, _ => m
                   | None, Some _ => 1
                   | None, None => snd (fst reference)
                   end in
          let d := match pd, pm, py with
                   | Some d, _, _ => d
                   | None, None, None => snd reference
                   | None, _, _ => 1
                   end in
          if match py with Some y => 1 <=? y | None => true end
             && (1 <=? m) && (m <=? 12) && (1 <=? d) && (d <=? daysInMonth y m)
          then Some (utc y m d) else None
      end
  end.

(** *** The dates and patterns that round-trip *)

(** The year of the civil date of [d]. *)
Definition yearOf (d : Date) : Z := fst (fst (civilFromDays (dayNumber d))).

(** A date the tokens [dd], [MM], [yyyy] represent exactly: the start
    of a day in the years 1 to 9999. *)
Definition representable (d : Date) : Prop :=
  d mod msPerDay = 0 /\ 1 <= yearOf d <= 9999.

Definition is_dd (t : Token) : bool := match t with T_dd => true | _ => false end.
Definition is_MM (t : Token) : bool := match t with T_MM => true | _ => false end.
Definition is_yyyy (t : Token) : bool := match t with T_yyyy => true | _ => false end.

(** A literal of a pattern that date-fns also reads as itself: neither a
    letter nor the quote that escapes letters. *)
Definition isSeparator (t : Token) : bool :=
  match t with
  | T_literal c =>
      let n := Z.of_nat (nat_of_ascii c) in
      negb (((65 <=? n) && (n <=? 90)) || ((97 <=? n) && (n <=? 122)) || (n =? 39))
  | _ => true
  end.

(** A pattern that names the day, the month and the year, each once,
    between separators: [dd/MM/yyyy], [yyyy-MM-dd], [MM.dd.yyyy]. *)
Definition fullDatePattern (pattern : string) : bool :=
  let ts := tokens pattern in
  (List.length (filter is_dd ts) =? 1)%nat
  && (List.length (filter is_MM ts) =? 1)%nat
  && (List.length (filter is_yyyy ts) =? 1)%nat
  && forallb isSeparator ts.

#[export] Instance dateFns : DateFns :=
  Build_DateFns add addDays addWeeks addMonths eachDayOfInterval
                isSameDay isSameMonth format parse.

End UTC.

(* ------------------------------------------------------------------ *)
(** ** A picker on the reference calendar

    Concrete helpers, options and states on which the hook is
    evaluated. *)

Module Example.

Definition Padding : Type := unit.

Definition today : Date := UTC.utc 2021 6 15.

Definition startOfMonth (d : Date) : Date :=
  let '(y, m, _) := UTC.civilFromDays (UTC.dayNumber d) in UTC.utc y m 1.

(** Modelled from the spec: [getPickerMonths] of
    [./useDatePicker.utils] (spec 4.5), without padding months:
    [numberOfMonths] consecutive months starting at the month that
    contains the anchor date, which is [today] when none is given. *)
Definition getPickerMonths (args : GetPickerMonthsArgs Padding) : list TPickerMonth :=
  let anchor :=
    startOfMonth (match gp_startDate _ args with Some d => d | None => today end) in
  map (fun k => mkPickerMonth (mkMonth (UTC.addMonths anchor (Z.of_nat k))) false)
      (seq 0 (Z.to_nat (gp_numberOfMonths _ args))).

(** Modelled from the spec: [getNextActiveMonth] of
    [./useDatePicker.utils] (spec 4.5): the whole window shifted by
    [step] months. *)
Definition getNextActiveMonth (months : list TPickerMonth) (step : Z)
  (firstDay : Z) (pad : option Padding) : list TPickerMonth :=
  map (fun m => mkPickerMonth (mkMonth (UTC.addMonths (month_date (month m)) step))
                              (isPadding m))
      months.

(** The options of a picker that leaves every option at the default of
    the parameter list ([minDate] 300 years before [today], two months,
    weeks starting on Monday, [dd/MM/yyyy]) except the initial start,
    the maximum date, the fixed range and the unavailable dates. *)
Definition configure (initialStart maxDate : option Date)
  (fixRange : option Duration) (unavailable : list Date)
  : UseDatePickerProps Padding :=
  mkProps initialStart None (Some (UTC.addMonths today (- (300 * 12)))) maxDate 2
          None None fixRange 1 None (UnavailableList unavailable) "dd/MM/yyyy" None.

Definition defaults : UseDatePickerProps Padding := configure None None None [].

(** The defaults with another [inputFormat]. *)
Definition withFormat (pattern : string) : UseDatePickerProps Padding :=
  mkProps None None (minDate defaults) None 2
          None None None 1 None (UnavailableList []) pattern None.

Definition jan (d : Z) : Date := UTC.utc 2021 1 d.

Definition twoDays : Duration := mkDuration 0 0 0 2 0 0 0.

(** The window [getPickerMonths] builds for January 2021. *)
Definition window : list TPickerMonth :=
  getPickerMonths (mkGetPickerMonthsArgs Padding 2 1 (Some (jan 1)) None None).

(** A start committed on [d], the end being picked. *)
Definition pickingEndFrom (d : Date) : State :=
  mkState window None None ActiveSelection.end_
          (mkDateRange (Some d) None)
          (mkInputValues (UTC.format d "dd/MM/yyyy") EmptyString)
          None.

(** Both ends committed, nothing being picked, 4 January focused. *)
Definition idle : State :=
  mkState window None (Some (jan 4)) ActiveSelection.none
          (mkDateRange (Some (jan 1)) (Some (jan 8)))
          (mkInputValues "01/01/2021" "08/01/2021")
          None.

(** Nothing committed, the end field clicked first. *)
Definition endFirst : State :=
  mkState window None None ActiveSelection.end_
          (mkDateRange None None)
          (mkInputValues EmptyString EmptyString)
          None.

(** A start committed on 1 January, the end being picked, 4 January
    under keyboard focus. *)
Definition focusedWhilePickingEnd : State :=
  mkState window None (Some (jan 4)) ActiveSelection.end_
          (mkDateRange (Some (jan 1)) None)
          (mkInputValues "01/01/2021" EmptyString)
          None.

End Example.

(* ------------------------------------------------------------------ *)
(** * Properties *)

Lemma run_app s xs ys : run s (xs ++ ys) = run (run s xs) ys.
Proof. unfold run. apply fold_left_app. Qed.

Lemma notified_app xs ys : notified (xs ++ ys) = notified xs ++ notified ys.
Proof.
  induction xs as [|e xs IH]; simpl; [reflexivity|].
  destruct e; simpl; rewrite ?IH; reflexivity.
Qed.

(** Setters other than [setDateRage] leave the committed range alone,
    and so on for each slice: cases a proof can name. *)
Lemma dateRange_apply s e :
  dateRange (apply_effect s e) =
    match e with setDateRage r => r | _ => dateRange s end.
Proof. destruct e; reflexivity. Qed.

Lemma activeSelection_apply s e :
  activeSelection (apply_effect s e) =
    match e with setActiveSelection a => a | _ => activeSelection s end.
Proof. destruct e; reflexivity. Qed.

Lemma run_cons_early s e calls : run s (e :: calls) = run (apply_effect s e) calls.
Proof. reflexivity. Qed.

Section Properties.

Context {DF : DateFns}.
Context {TPickerMonthPadding : Type}.
Variable getPickerMonths : GetPickerMonthsArgs TPickerMonthPadding -> list TPickerMonth.
Variable validateDates : ValidateDatesArgs -> bool.
Variable props : UseDatePickerProps TPickerMonthPadding.

(** ** Commit path *)

(** The calls of an accepted commit: the range, the notification, at
    most one window rebuild, at most one text resynchronisation, and one
    selection move. *)
Lemma onDateSelect_accepted st range sync :
  commitIsValid validateDates props range = true ->
  exists rebuild resync next,
    onDateSelect getPickerMonths validateDates props st range sync =
      [ setDateRage range;
        onDatesChange (mkOnDatesChangeProps (dr_start range) (dr_end range)) ]
      ++ rebuild ++ resync ++ [ setActiveSelection next ]
    /\ notified rebuild = [] /\ notified resync = []
    /\ (forall s, dateRange (run s rebuild) = dateRange s)
    /\ (forall s, dateRange (run s resync) = dateRange s)
    /\ (forall s, activeSelection (run s rebuild) = activeSelection s)
    /\ (forall s, activeSelection (run s resync) = activeSelection s)
    /\ next = (if ActiveSelection.eqb (activeSelection st) ActiveSelection.end_
                  && is_some (dr_start range)
               then ActiveSelection.none else ActiveSelection.end_).
Proof.
  intros Hv. unfold onDateSelect. rewrite Hv.
  eexists _, _, _. split.
  - f_equal. f_equal. f_equal.
    instantiate (1 := if ActiveSelection.eqb (activeSelection st) ActiveSelection.end_
                         && is_some (dr_start range)
                      then ActiveSelection.none else ActiveSelection.end_).
    destruct (ActiveSelection.eqb (activeSelection st) ActiveSelection.end_
              && is_some (dr_start range)); reflexivity.
  - repeat split;
      try (destruct sync; reflexivity);
      match goal with
      | |- context [if ?c then _ else _] => destruct c; reflexivity
      end.
Qed.

(** C2: a date-select attempt that fails validation makes no call at
    all, so the committed range, the active selection, the visible
    months and the input texts stay as they were and [onDatesChange] is
    not invoked; an attempt that passes validation invokes
    [onDatesChange] exactly once, with the two endpoints of the range,
    [null] ([None]) for an absent one.  The embedding is a total
    function: no path raises. *)
Theorem C2_failed_commit_is_declined st range sync :
  let calls := onDateSelect getPickerMonths validateDates props st range sync in
  if commitIsValid validateDates props range
  then notified calls = [ mkOnDatesChangeProps (dr_start range) (dr_end range) ]
  else calls = [] /\ run st calls = st /\ notified calls = [].
Proof.
  intros calls.
  destruct (commitIsValid validateDates props range) eqn:Hv.
  - destruct (onDateSelect_accepted st range sync Hv)
      as (rebuild & resync & next & Hcalls & Hn1 & Hn2 & _).
    subst calls. rewrite Hcalls.
    rewrite !notified_app, Hn1, Hn2. reflexivity.
  - subst calls. unfold onDateSelect. rewrite Hv. repeat split.
Qed.

(** ** Initial state *)

(** Whatever the options, the committed range starts out empty and the
    active selection starts out on the start; the mount effect changes
    neither. *)
Lemma initialState_is_fixed :
  let s0 := initialState props in
  let s1 := run s0 (mountEffect getPickerMonths props s0) in
  dateRange s0 = mkDateRange None None
  /\ activeSelection s0 = ActiveSelection.start
  /\ dateRange s1 = mkDateRange None None
  /\ activeSelection s1 = ActiveSelection.start.
Proof. repeat split. Qed.

(** ** Keyboard *)

Lemma isNavigationKey_false key :
  isNavigationKey key = false ->
  String.eqb key "ArrowRight" = false /\ String.eqb key "ArrowLeft" = false
  /\ String.eqb key "ArrowUp" = false /\ String.eqb key "ArrowDown" = false
  /\ String.eqb key "PageUp" = false /\ String.eqb key "PageDown" = false.
Proof.
  unfold isNavigationKey, navigationKeys. simpl.
  rewrite !orb_false_iff. tauto.
Qed.

(** C10: when a date has keyboard focus, a key-down whose key is none
    of the six navigation keys sets the focused date to [undefined]. *)
Theorem C10_other_key_clears_focus st key d :
  isNavigationKey key = false ->
  focusedDate st = Some d ->
  focusedDate (run st (handleKeyDown st key)) = None.
Proof.
  intros Hkey Hfocus.
  destruct (isNavigationKey_false key Hkey) as (H1 & H2 & H3 & H4 & H5 & H6).
  simpl. rewrite Hfocus. unfold keyDownUpdater.
  rewrite H1, H2, H3, H4, H5, H6. reflexivity.
Qed.

(** ** Hover classification *)

Ltac split_ifs :=
  repeat match goal with
         | |- context [if ?c then _ else _] =>
             match type of c with bool => destruct c eqn:?; simpl end
         end.

Lemma hoverError_first_match st date :
  hoverError props st date = firstMatch (rulesInHookOrder props (dateRange st) date).
Proof.
  unfold hoverError, rulesInHookOrder, lessThanMinDate, greaterThanMaxDate,
    afterFixRange.
  destruct (isDisabled props date), (minDate props) as [m|], (maxDate props) as [x|],
    (fixRange props) as [fr|]; simpl; split_ifs; reflexivity.
Qed.

(** C4 (as amended): the error stored with a hovered date is the first
    match of the rules in the order [LESS_THAN_MIN_DATE], [BLOCKED_DATE],
    [GREATER_THAN_MAX_DATE], [VIOLATES_FIX_RANGE]; in particular a
    hovered date that is blocked and later than [maxDate], and not
    before the minimum bound, is classified [BLOCKED_DATE]. *)
Theorem C4_hover_precedence st date :
  hoveredDate (run st (onDateHover props st date)) =
    Some {| hd_date := date;
            hd_error :=
              error_of (firstMatch (rulesInHookOrder props (dateRange st) date)) |}
  /\ (lessThanMinDate props date = false ->
      isDisabled props date = true ->
      greaterThanMaxDate props date = true ->
      hoverError props st date = Some BLOCKED_DATE).
Proof.
  split.
  - simpl. rewrite hoverError_first_match. reflexivity.
  - intros Hmin Hblocked Hmax. rewrite hoverError_first_match.
    unfold rulesInHookOrder. rewrite Hmin, Hblocked. reflexivity.
Qed.

(** C6 (as amended): when no earlier rule matches, the hovered date is
    classified [VIOLATES_FIX_RANGE] exactly when a [fixRange] is
    configured and the date is later than a committed endpoint plus
    [fixRange]; otherwise it has no error, however far before the
    endpoint it lies. *)
Theorem C6_fix_range_after_side st date :
  lessThanMinDate props date = false ->
  isDisabled props date = false ->
  greaterThanMaxDate props date = false ->
  hoverError props st date =
    if afterFixRange props (dateRange st) date then Some VIOLATES_FIX_RANGE else None.
Proof.
  intros Hmin Hblocked Hmax. rewrite hoverError_first_match.
  unfold rulesInHookOrder. rewrite Hmin, Hblocked, Hmax. simpl.
  destruct (afterFixRange props (dateRange st) date); reflexivity.
Qed.

(** ** Hover preview *)

Lemma hoverInterval_formed st date :
  hoverInterval st date =
    if hoverBeyondEndpoint st date then Some (previewInterval st date) else None.
Proof.
  unfold hoverInterval, hoverBeyondEndpoint, previewInterval.
  destruct (activeSelection st), (dr_start (dateRange st)) as [s|],
    (dr_end (dateRange st)) as [e|]; simpl; rewrite ?Z.gtb_ltb;
    try destruct (s <? date); try destruct (date <? e); reflexivity.
Qed.

(** The value [calculatePotentialRange] stores for a hovered date. *)
Lemma calculatePotentialRange_value st date :
  potentialRange (run st (calculatePotentialRange props st (Some date))) =
    if hoverBeyondEndpoint st date
    then Some {| pr_range := previewInterval st date;
                 pr_error := error_of (rangeError props (previewInterval st date)) |}
    else None.
Proof.
  unfold calculatePotentialRange. rewrite hoverInterval_formed.
  unfold hoverBeyondEndpoint.
  destruct (activeSelection st), (dr_start (dateRange st)) as [s|],
    (dr_end (dateRange st)) as [e|]; simpl;
    try destruct (s <? date); try destruct (date <? e); reflexivity.
Qed.

(** C5: the preview is formed only when the committed endpoint opposite
    to the active selection exists and the hovered date lies strictly
    beyond it, and then spans from that endpoint to the hovered date;
    with no committed endpoint, with an idle selection, or with a hover
    that is not beyond the endpoint, the stored preview is [undefined]. *)
Theorem C5_preview_formation st date :
  let preview := potentialRange (run st (calculatePotentialRange props st (Some date))) in
  (forall r, preview = Some r ->
     (activeSelection st = ActiveSelection.end_
      /\ exists s, dr_start (dateRange st) = Some s /\ s < date
                   /\ pr_range r = mkInterval s date)
     \/
     (activeSelection st = ActiveSelection.start
      /\ exists e, dr_end (dateRange st) = Some e /\ date < e
                   /\ pr_range r = mkInterval date e))
  /\ ((dr_start (dateRange st) = None /\ dr_end (dateRange st) = None)
      \/ activeSelection st = ActiveSelection.none
      \/ hoverBeyondEndpoint st date = false ->
      preview = None).
Proof.
  intros preview. subst preview. rewrite calculatePotentialRange_value.
  unfold hoverBeyondEndpoint, previewInterval. split.
  - intros r Hr.
    destruct (activeSelection st); [right | left | discriminate].
    + destruct (dr_end (dateRange st)) as [e|]; [|discriminate].
      destruct (date <? e) eqn:Hlt; [|discriminate].
      split; [reflexivity|]. exists e. apply Z.ltb_lt in Hlt.
      injection Hr as <-. simpl.
      destruct (dr_start (dateRange st)); auto.
    + destruct (dr_start (dateRange st)) as [s|]; [|discriminate].
      destruct (s <? date) eqn:Hlt; [|discriminate].
      split; [reflexivity|]. exists s. apply Z.ltb_lt in Hlt.
      injection Hr as <-. auto.
  - intros [[Hs He] | [Hnone | Hnot]].
    + rewrite Hs, He. destruct (activeSelection st); reflexivity.
    + rewrite Hnone. reflexivity.
    + destruct (activeSelection st); try reflexivity.
      * destruct (dr_end (dateRange st)); [|reflexivity]. rewrite Hnot. reflexivity.
      * destruct (dr_start (dateRange st)); [|reflexivity]. rewrite Hnot. reflexivity.
Qed.

(** The last check of [calculatePotentialRange] on an interval that
    passes the two range limits: the error is set when no day of the
    interval is blocked. *)
Lemma rangeError_blocked_check range :
  passesRangeLimits props range = true ->
  rangeError props range =
    if containsBlockedDate props range then None else Some CONTAINS_BLOCKED_DATE.
Proof.
  unfold passesRangeLimits, rangeError, containsBlockedDate.
  intros H. apply andb_prop in H. destruct H as [Hmin Hmax].
  destruct (minDateRange props) as [lo|], (maxDateRange props) as [hi|];
    try rewrite Hmin; try (apply negb_true_iff in Hmax; rewrite Hmax); simpl;
    destruct (existsb (isDisabled props) (eachDayOfInterval range)); reflexivity.
Qed.

(** [calculatePotentialRange] makes one call, [setPotentialRange], and
    reads the committed range and the active selection only. *)
Lemma calculatePotentialRange_single st date :
  exists p, calculatePotentialRange props st date = [ setPotentialRange p ].
Proof.
  unfold calculatePotentialRange.
  destruct date as [date|]; [|eexists; reflexivity].
  split_ifs; [eexists; reflexivity|].
  destruct (hoverInterval st date); eexists; reflexivity.
Qed.

Lemma calculatePotentialRange_reads st st' date :
  dateRange st' = dateRange st ->
  activeSelection st' = activeSelection st ->
  calculatePotentialRange props st' date = calculatePotentialRange props st date.
Proof.
  intros Hr Ha. unfold calculatePotentialRange, hoverInterval.
  rewrite Hr, Ha. reflexivity.
Qed.

(** C8: recomputing the preview for the same hovered date a second time
    gives the state of the first recomputation; the stored preview is a
    function of the hovered date, the committed range and the active
    selection alone; the recomputation invokes no callback and changes
    no slice other than the preview. *)
Theorem C8_recompute_idempotent st date :
  let recompute s := run s (calculatePotentialRange props s date) in
  recompute (recompute st) = recompute st
  /\ (forall st', dateRange st' = dateRange st ->
                  activeSelection st' = activeSelection st ->
                  potentialRange (recompute st') = potentialRange (recompute st))
  /\ notified (calculatePotentialRange props st date) = []
  /\ recompute st =
       mkState (activeMonths st) (hoveredDate st) (focusedDate st)
               (activeSelection st) (dateRange st) (currentInputValues st)
               (potentialRange (recompute st)).
Proof.
  intros recompute. subst recompute. cbv beta.
  destruct (calculatePotentialRange_single st date) as [p Hp].
  repeat split.
  - rewrite Hp. simpl.
    match goal with
    | |- context [calculatePotentialRange props ?s date] =>
        rewrite (calculatePotentialRange_reads st s date eq_refl eq_refl), Hp
    end.
    reflexivity.
  - intros st' Hr Ha.
    rewrite (calculatePotentialRange_reads st st' date Hr Ha), Hp. reflexivity.
  - rewrite Hp. reflexivity.
  - rewrite Hp. reflexivity.
Qed.

(** ** Commit path, continued *)

Lemma onDateSelect_dateRange s st range sync :
  dateRange (run s (onDateSelect getPickerMonths validateDates props st range sync)) =
    if commitIsValid validateDates props range then range else dateRange s.
Proof.
  destruct (commitIsValid validateDates props range) eqn:Hv.
  - destruct (onDateSelect_accepted st range sync Hv)
      as (rebuild & resync & next & Hcalls & _ & _ & Hr1 & Hr2 & _).
    rewrite Hcalls, !run_app.
    change (run ?s [?e]) with (apply_effect s e).
    rewrite dateRange_apply, Hr2, Hr1. reflexivity.
  - unfold onDateSelect. rewrite Hv. reflexivity.
Qed.

Lemma onDateSelect_activeSelection s st range sync :
  commitIsValid validateDates props range = true ->
  activeSelection (run s (onDateSelect getPickerMonths validateDates props st range sync)) =
    if ActiveSelection.eqb (activeSelection st) ActiveSelection.end_
       && is_some (dr_start range)
    then ActiveSelection.none else ActiveSelection.end_.
Proof.
  intros Hv.
  destruct (onDateSelect_accepted st range sync Hv)
    as (rebuild & resync & next & Hcalls & _ & _ & _ & _ & _ & _ & Hnext).
  rewrite Hcalls, !run_app.
  change (run ?s [?e]) with (apply_effect s e).
  rewrite activeSelection_apply, Hnext. reflexivity.
Qed.

(** A click while idle, when the gate accepts the range made of the
    clicked date alone. *)
Lemma onDateClick_idle_accepted st date :
  activeSelection st = ActiveSelection.none ->
  commitIsValid validateDates props (mkDateRange (Some date) None) = true ->
  let calls := onDateClick getPickerMonths validateDates props st date in
  dateRange (run st calls) = mkDateRange (Some date) None
  /\ activeSelection (run st calls) = ActiveSelection.end_
  /\ notified calls = [ mkOnDatesChangeProps (Some date) None ].
Proof.
  intros Hidle Hv calls. subst calls. unfold onDateClick. rewrite Hidle.
  change (run st (?a :: ?l)) with (run (apply_effect st a) l).
  repeat split.
  - rewrite onDateSelect_dateRange, Hv. reflexivity.
  - rewrite onDateSelect_activeSelection by exact Hv. rewrite Hidle. reflexivity.
  - simpl.
    destruct (onDateSelect_accepted st (mkDateRange (Some date) None) true Hv)
      as (rebuild & resync & next & Hcalls & Hn1 & Hn2 & _).
    rewrite Hcalls, !notified_app, Hn1, Hn2. reflexivity.
Qed.

(** ** Text synchronisation *)

Lemma textToDate_parse text now :
  textToDate props text now = parse text (inputFormat props) now.
Proof. unfold textToDate. destruct (parse text (inputFormat props) now); reflexivity. Qed.

(** The texts of a range parse back to it when the text of each present
    endpoint parses back and the empty text is no date. *)
Lemma textToRange_parsesBack range now :
  (forall d, dr_start range = Some d -> parsesBack props d now) ->
  (forall d, dr_end range = Some d -> parsesBack props d now) ->
  parse EmptyString (inputFormat props) now = None ->
  textRoundTrips props range now.
Proof.
  intros Hstart Hend Hempty. destruct range as [rs re]. simpl in Hstart, Hend.
  unfold textRoundTrips, textToRange. rewrite !textToDate_parse. simpl.
  f_equal.
  - destruct rs as [d|]; [exact (Hstart d eq_refl) | exact Hempty].
  - destruct re as [d|]; [exact (Hend d eq_refl) | exact Hempty].
Qed.

(** Typing the two texts of a formatted range, one change per render,
    into a picker with nothing committed: each present endpoint is
    submitted to the gate with the endpoint committed before it, an
    absent one is not submitted. *)
Lemma typing_formatted_range st range now :
  dateRange st = mkDateRange None None ->
  (forall d, dr_start range = Some d -> parsesBack props d now) ->
  (forall d, dr_end range = Some d -> parsesBack props d now) ->
  parse EmptyString (inputFormat props) now = None ->
  (forall d, dr_start range = Some d ->
             commitIsValid validateDates props (mkDateRange (Some d) None) = true) ->
  (forall d, dr_end range = Some d -> commitIsValid validateDates props range = true) ->
  let text := getInputValuesFromRange props range in
  let st1 := run st (onChange getPickerMonths validateDates props st
                       ActiveSelection.start (civ_start text) now) in
  let st2 := run st1 (onChange getPickerMonths validateDates props st1
                        ActiveSelection.end_ (civ_end text) now) in
  dateRange st2 = range.
Proof.
  intros Hst Hstart Hend Hempty Hv1 Hv2 text st1 st2.
  destruct range as [rs re]. simpl in Hstart, Hend, Hv1, Hv2.
  assert (H1 : dateRange st1 = mkDateRange rs None).
  { subst st1 text. unfold onChange. rewrite run_cons_early. simpl civ_start.
    destruct rs as [d|].
    - rewrite (Hstart d eq_refl). simpl.
      rewrite onDateSelect_dateRange, Hst. simpl. rewrite (Hv1 d eq_refl). reflexivity.
    - rewrite Hempty. simpl. exact Hst. }
  subst st2 text. unfold onChange. rewrite run_cons_early. simpl civ_end.
  destruct re as [d|].
  - rewrite (Hend d eq_refl). simpl.
    rewrite onDateSelect_dateRange, H1. simpl. rewrite (Hv2 d eq_refl). reflexivity.
  - rewrite Hempty. simpl. exact H1.
Qed.

End Properties.

(** ** Click while idle, with the gate of the specification *)

(** C7: with the commit gate as the specification describes it, a click
    on a date while the active selection is [none] commits the range
    made of that date as start and no end, notifies the caller of it,
    and moves the active selection to the end. *)
Theorem C7_idle_click_starts_fresh_range
  {DF : DateFns} {TPickerMonthPadding : Type}
  (getPickerMonths : GetPickerMonthsArgs TPickerMonthPadding -> list TPickerMonth)
  (props : UseDatePickerProps TPickerMonthPadding) (st : State) (date : Date) :
  activeSelection st = ActiveSelection.none ->
  let calls := onDateClick getPickerMonths validateDatesSpec props st date in
  dateRange (run st calls) = mkDateRange (Some date) None
  /\ activeSelection (run st calls) = ActiveSelection.end_
  /\ notified calls = [ mkOnDatesChangeProps (Some date) None ].
Proof.
  intros Hidle. apply onDateClick_idle_accepted; [exact Hidle | reflexivity].
Qed.

(* ------------------------------------------------------------------ *)
(** * Text round trip on the reference calendar *)

(** The civil date of a day number gives the day number back, and is a
    date of the calendar. *)
Lemma civil_round_trip z :
  match UTC.civilFromDays z with
  | (y, m, d) =>
      UTC.daysFromCivil y m d = z /\ 1 <= m <= 12 /\ 1 <= d <= UTC.daysInMonth y m /\ d <= 31
  end.
Proof.
  unfold UTC.civilFromDays. cbv zeta.
  remember (z + 719468) as z' eqn:Hz'.
  remember (z' / 146097) as era eqn:Hera.
  remember (z' - era * 146097) as doe eqn:Hdoe.
  remember ((doe - doe / 1460 + doe / 36524 - doe / 146096) / 365) as yoe eqn:Hyoe.
  remember (doe - (365 * yoe + yoe / 4 - yoe / 100)) as doy eqn:Hdoy.
  remember ((5 * doy + 2) / 153) as mp eqn:Hmp.
  assert (Bdoe : 0 <= doe < 146097) by (subst; Z.div_mod_to_equations; lia).
  assert (Byoe : 0 <= yoe <= 399) by (subst yoe; Z.div_mod_to_equations; lia).
  assert (Bdoy : 0 <= doy <= 365) by (subst doy yoe; Z.div_mod_to_equations; lia).
  assert (Bmp : 0 <= mp <= 11) by (subst mp; Z.div_mod_to_equations; lia).
  assert (Cmp : mp = 0 \/ mp = 1 \/ mp = 2 \/ mp = 3 \/ mp = 4 \/ mp = 5 \/ mp = 6
                \/ mp = 7 \/ mp = 8 \/ mp = 9 \/ mp = 10 \/ mp = 11) by lia.
  clear Bmp.
  repeat (destruct Cmp as [Cmp | Cmp]);
    rewrite Cmp in *; unfold UTC.daysInMonth, UTC.daysFromCivil; cbv zeta;
    repeat match goal with
    | |- context [if ?c then _ else _] =>
       let E := fresh "E" in destruct c eqn:E;
       [ first [apply Z.ltb_lt in E | apply Z.leb_le in E | apply Z.eqb_eq in E]
       | first [apply Z.ltb_ge in E | apply Z.leb_gt in E | apply Z.eqb_neq in E] ];
       try lia
    end;
    (Z.div_mod_to_equations; lia).
Qed.

(** A printed digit reads as itself. *)
Lemma digitValue_digit n : UTC.digitValue (UTC.digit n) = Some (n mod 10).
Proof.
  unfold UTC.digit.
  assert (H : 0 <= n mod 10 < 10) by (apply Z.mod_pos_bound; lia).
  assert (C : n mod 10 = 0 \/ n mod 10 = 1 \/ n mod 10 = 2 \/ n mod 10 = 3
              \/ n mod 10 = 4 \/ n mod 10 = 5 \/ n mod 10 = 6 \/ n mod 10 = 7
              \/ n mod 10 = 8 \/ n mod 10 = 9) by lia.
  repeat (destruct C as [C | C]); rewrite C; reflexivity.
Qed.

Lemma readDigits_two n rest :
  0 <= n < 100 ->
  UTC.readDigits 2 (UTC.digits 2 n rest) 0 0 = Some (n, rest).
Proof.
  intros Hn. cbn [UTC.digits UTC.readDigits].
  rewrite !digitValue_digit. cbn [UTC.readDigits].
  do 2 f_equal. Z.div_mod_to_equations. lia.
Qed.

Lemma readDigits_year y rest :
  1 <= y <= 9999 ->
  UTC.readDigits 4 (UTC.yearDigits y rest) 0 0 = Some (y, rest).
Proof.
  intros Hy. unfold UTC.yearDigits.
  replace (0 <? y) with true by (symmetry; apply Z.ltb_lt; lia).
  replace (y <? 10000) with true by (symmetry; apply Z.ltb_lt; lia).
  cbn [UTC.digits UTC.readDigits].
  rewrite !digitValue_digit. cbn [UTC.readDigits].
  do 2 f_equal. Z.div_mod_to_equations. lia.
Qed.

Lemma parseTokens_formatTokens y m d ts :
  1 <= y <= 9999 -> 0 <= m < 100 -> 0 <= d < 100 ->
  forall acc,
    UTC.parseTokens ts (UTC.formatTokens ts y m d) acc =
      Some (UTC.mkParsed
              (if existsb UTC.is_yyyy ts then Some y else UTC.p_year acc)
              (if existsb UTC.is_MM ts then Some m else UTC.p_month acc)
              (if existsb UTC.is_dd ts then Some d else UTC.p_day acc)).
Proof.
  intros Hy Hm Hd. induction ts as [|t ts IH]; intros acc.
  - destruct acc; reflexivity.
  - destruct t; cbn [UTC.formatTokens UTC.parseTokens existsb UTC.is_yyyy UTC.is_MM
                       UTC.is_dd orb].
    + rewrite readDigits_two by exact Hd. rewrite IH. cbn [UTC.p_year UTC.p_month UTC.p_day].
      destruct (existsb UTC.is_dd ts); reflexivity.
    + rewrite readDigits_two by exact Hm. rewrite IH. cbn [UTC.p_year UTC.p_month UTC.p_day].
      destruct (existsb UTC.is_MM ts); reflexivity.
    + rewrite readDigits_year by exact Hy. rewrite IH. cbn [UTC.p_year UTC.p_month UTC.p_day].
      destruct (existsb UTC.is_yyyy ts); reflexivity.
    + rewrite Ascii.eqb_refl. apply IH.
Qed.

Lemma existsb_of_one {A} (f : A -> bool) l :
  (List.length (filter f l) =? 1)%nat = true -> existsb f l = true.
Proof.
  induction l as [|a l IH]; simpl; [discriminate|].
  destruct (f a); [reflexivity | exact IH].
Qed.

Lemma fullDatePattern_tokens pattern :
  UTC.fullDatePattern pattern = true ->
  existsb UTC.is_dd (UTC.tokens pattern) = true
  /\ existsb UTC.is_MM (UTC.tokens pattern) = true
  /\ existsb UTC.is_yyyy (UTC.tokens pattern) = true.
Proof.
  unfold UTC.fullDatePattern. cbv zeta. rewrite !andb_true_iff.
  intros [[[Hd Hm] Hy] _]. auto using existsb_of_one.
Qed.

Lemma fullDatePattern_not_empty pattern :
  UTC.fullDatePattern pattern = true ->
  exists c rest, pattern = String c rest.
Proof.
  destruct pattern as [|c rest]; [discriminate | eauto].
Qed.

(** Under a full pattern the text of a representable date parses back to
    the date, whatever the reference date. *)
Lemma parse_format pattern d now :
  UTC.fullDatePattern pattern = true ->
  UTC.representable d ->
  UTC.parse (UTC.format d pattern) pattern now = Some d.
Proof.
  intros Hp [Hday Hyear].
  destruct (fullDatePattern_tokens pattern Hp) as (Hdd & HMM & Hyyyy).
  destruct (fullDatePattern_not_empty pattern Hp) as (c & rest & Hpat).
  pose proof (civil_round_trip (UTC.dayNumber d)) as Hcivil.
  unfold UTC.yearOf in Hyear. unfold UTC.format.
  destruct (UTC.civilFromDays (UTC.dayNumber d)) as [[y m] dd].
  simpl in Hyear. destruct Hcivil as (Hback & Hm & Hd & Hd31).
  subst pattern. unfold UTC.parse. cbv beta iota.
  rewrite parseTokens_formatTokens by lia.
  rewrite Hdd, HMM, Hyyyy. cbv beta iota zeta.
  replace (1 <=? y) with true by (symmetry; apply Z.leb_le; lia).
  replace (1 <=? m) with true by (symmetry; apply Z.leb_le; lia).
  replace (m <=? 12) with true by (symmetry; apply Z.leb_le; lia).
  replace (1 <=? dd) with true by (symmetry; apply Z.leb_le; lia).
  replace (dd <=? UTC.daysInMonth y m) with true by (symmetry; apply Z.leb_le; lia).
  cbn [andb]. f_equal. unfold UTC.utc. rewrite Hback.
  unfold UTC.dayNumber, UTC.msPerDay in *. Z.div_mod_to_equations. lia.
Qed.

(** Under a full pattern the empty text is no date. *)
Lemma parse_empty pattern now :
  UTC.fullDatePattern pattern = true ->
  UTC.parse EmptyString pattern now = None.
Proof.
  intros Hp.
  destruct (fullDatePattern_tokens pattern Hp) as (Hdd & _ & _).
  destruct (fullDatePattern_not_empty pattern Hp) as (c & rest & Hpat).
  subst pattern. unfold UTC.parse. cbv beta iota.
  destruct (UTC.tokens (String c rest)) as [|t ts]; [discriminate Hdd|].
  destruct t; reflexivity.
Qed.

Section TextRoundTrip.

#[local] Existing Instance UTC.dateFns.

Context {TPickerMonthPadding : Type}.
Variable getPickerMonths : GetPickerMonthsArgs TPickerMonthPadding -> list TPickerMonth.
Variable validateDates : ValidateDatesArgs -> bool.
Variable props : UseDatePickerProps TPickerMonthPadding.


End TextRoundTrip.

(* ------------------------------------------------------------------ *)
(** * The hook evaluated on the reference calendar *)

Section OnTheReferenceCalendar.

#[local] Existing Instance UTC.dateFns.

Import Example.

(** C1: the last check of [calculatePotentialRange] is the negation of
    what its comment and its reason tag say.  With a start committed on
    1 January 2021 and 3 January hovered, no range limit configured:
    when no date is unavailable the preview carries
    [CONTAINS_BLOCKED_DATE]; when 2 January is unavailable the preview
    carries no error. *)
Theorem C1_blocked_check_is_inverted :
  let st := pickingEndFrom (jan 1) in
  let range := mkInterval (jan 1) (jan 3) in
  let blocked := configure None None None [jan 2] in
  (containsBlockedDate defaults range = false
   /\ potentialRange (run st (calculatePotentialRange defaults st (Some (jan 3)))) =
        Some (mkPotential range (Some (mkError CONTAINS_BLOCKED_DATE))))
  /\ (containsBlockedDate blocked range = true
      /\ potentialRange (run st (calculatePotentialRange blocked st (Some (jan 3)))) =
           Some (mkPotential range None))
  /\ ~ flagsBlockedInterval defaults range
  /\ ~ flagsBlockedInterval blocked range.
Proof.
  cbv zeta. repeat split; try (vm_compute; reflexivity).
  - intros H. specialize (H eq_refl). vm_compute in H. discriminate H.
  - intros H. specialize (H eq_refl). vm_compute in H. discriminate H.
Qed.

(** The scenario of the specification: the start on 5 January, the end
    typed or clicked on 3 January; the gate of the specification
    rejects the reversed range and nothing changes. *)
Lemma C2_declined_witness :
  let st := pickingEndFrom (jan 5) in
  let range := mkDateRange (Some (jan 5)) (Some (jan 3)) in
  let calls := onDateSelect getPickerMonths validateDatesSpec defaults st range true in
  calls = [] /\ run st calls = st /\ notified calls = [].
Proof.
  exact (C2_failed_commit_is_declined getPickerMonths validateDatesSpec defaults
           (pickingEndFrom (jan 5)) (mkDateRange (Some (jan 5)) (Some (jan 3))) true).
Defined.

(** C3: a start supplied without an end.  The specification has the
    committed range seeded with it and the selection on the end; the
    hook, which declares and defaults the two options, starts with the
    empty range and the selection on the start, and its mount effect,
    which derives the window and the texts from the committed range,
    finds that range empty. *)
Theorem C3_supplied_start_is_dropped :
  let props := configure (Some (jan 1)) None None [] in
  let s0 := initialState props in
  let s1 := run s0 (mountEffect getPickerMonths props s0) in
  (startDate props = Some (jan 1)
   /\ seededRange props = mkDateRange (Some (jan 1)) None
   /\ seededSelection props = ActiveSelection.end_)
  /\ (dateRange s0 = mkDateRange None None
      /\ activeSelection s0 = ActiveSelection.start)
  /\ (dateRange s1 = mkDateRange None None
      /\ activeSelection s1 = ActiveSelection.start
      /\ currentInputValues s1 = mkInputValues EmptyString EmptyString)
  /\ ~ initialStateSeeded props.
Proof.
  cbv zeta. repeat split.
  unfold initialStateSeeded. intros [Hrange _]. vm_compute in Hrange.
  discriminate Hrange.
Qed.

(** 15 January is unavailable and later than the maximum date,
    10 January: the order of the specification gives
    [GREATER_THAN_MAX_DATE], the hook stores [BLOCKED_DATE]. *)
Lemma C4_counterexample :
  let props := configure None (Some (jan 10)) None [jan 15] in
  isDisabled props (jan 15) = true
  /\ greaterThanMaxDate props (jan 15) = true
  /\ firstMatch (rulesInSpecOrder props (dateRange (initialState defaults)) (jan 15))
       = Some GREATER_THAN_MAX_DATE
  /\ hoverError props (initialState defaults) (jan 15) = Some BLOCKED_DATE
  /\ ~ hoverFollowsSpecOrder props (initialState defaults) (jan 15).
Proof.
  cbv zeta. repeat split; try (vm_compute; reflexivity).
  unfold hoverFollowsSpecOrder. vm_compute. discriminate.
Qed.

Lemma C4_witness :
  let props := configure None (Some (jan 10)) None [jan 15] in
  (lessThanMinDate props (jan 15) = false
   /\ isDisabled props (jan 15) = true
   /\ greaterThanMaxDate props (jan 15) = true)
  /\ hoverError props (initialState defaults) (jan 15) = Some BLOCKED_DATE.
Proof.
  cbv zeta. split; [repeat split|].
  exact (proj2 (C4_hover_precedence (configure None (Some (jan 10)) None [jan 15])
                  (initialState defaults) (jan 15))
               eq_refl eq_refl eq_refl).
Defined.

(** A start on 1 January with the end being picked: hovering 3 January
    forms the preview from 1 to 3 January; hovering 1 January itself
    clears it. *)
Lemma C5_witness :
  let st := pickingEndFrom (jan 1) in
  let r := mkPotential (mkInterval (jan 1) (jan 3))
                       (Some (mkError CONTAINS_BLOCKED_DATE)) in
  potentialRange (run st (calculatePotentialRange defaults st (Some (jan 3)))) = Some r
  /\ ((activeSelection st = ActiveSelection.end_
       /\ exists s, dr_start (dateRange st) = Some s /\ s < jan 3
                    /\ pr_range r = mkInterval s (jan 3))
      \/ (activeSelection st = ActiveSelection.start
          /\ exists e, dr_end (dateRange st) = Some e /\ jan 3 < e
                       /\ pr_range r = mkInterval (jan 3) e))
  /\ hoverBeyondEndpoint st (jan 1) = false
  /\ potentialRange (run st (calculatePotentialRange defaults st (Some (jan 1)))) = None.
Proof.
  cbv zeta. split; [reflexivity|]. split.
  - exact (proj1 (C5_preview_formation defaults (pickingEndFrom (jan 1)) (jan 3))
                 _ eq_refl).
  - split; [reflexivity|].
    exact (proj2 (C5_preview_formation defaults (pickingEndFrom (jan 1)) (jan 1))
                 (or_intror (or_intror eq_refl))).
Defined.

(** A fixed range of two days and a start on 10 January: 1 January lies
    more than two days before the start and is not rejected. *)
Lemma C6_counterexample :
  ~ fixRangeRejectsBothSides (configure None None (Some twoDays) [])
      (pickingEndFrom (jan 10)) (jan 1).
Proof.
  intros H. specialize (H eq_refl eq_refl eq_refl eq_refl).
  vm_compute in H. discriminate H.
Qed.

(** The same picker: 20 January lies more than two days after the
    start and is rejected. *)
Lemma C6_witness :
  let props := configure None None (Some twoDays) [] in
  (lessThanMinDate props (jan 20) = false
   /\ isDisabled props (jan 20) = false
   /\ greaterThanMaxDate props (jan 20) = false)
  /\ hoverError props (pickingEndFrom (jan 10)) (jan 20) = Some VIOLATES_FIX_RANGE.
Proof.
  cbv zeta. split; [repeat split|].
  exact (C6_fix_range_after_side (configure None None (Some twoDays) [])
           (pickingEndFrom (jan 10)) (jan 20) eq_refl eq_refl eq_refl).
Defined.

(** A click on 20 January while 1 to 8 January is committed and nothing
    is being picked. *)
Lemma C7_witness :
  let calls := onDateClick getPickerMonths validateDatesSpec defaults idle (jan 20) in
  activeSelection idle = ActiveSelection.none
  /\ dateRange (run idle calls) = mkDateRange (Some (jan 20)) None
  /\ activeSelection (run idle calls) = ActiveSelection.end_
  /\ notified calls = [ mkOnDatesChangeProps (Some (jan 20)) None ].
Proof.
  cbv zeta. split; [reflexivity|].
  exact (C7_idle_click_starts_fresh_range getPickerMonths defaults idle (jan 20) eq_refl).
Defined.

(** Two states that agree on the committed range and the active
    selection and differ in every other slice. *)
Lemma C8_witness :
  let st := pickingEndFrom (jan 1) in
  let st' := mkState [] (Some (mkHovered (jan 3) None)) (Some (jan 2))
                     ActiveSelection.end_ (mkDateRange (Some (jan 1)) None)
                     (mkInputValues "1/1" "3/1")
                     (Some (mkPotential (mkInterval (jan 1) (jan 2)) None)) in
  (dateRange st' = dateRange st /\ activeSelection st' = activeSelection st)
  /\ potentialRange (run st' (calculatePotentialRange defaults st' (Some (jan 3)))) =
       potentialRange (run st (calculatePotentialRange defaults st (Some (jan 3)))).
Proof.
  cbv zeta. split; [split; reflexivity|].
  exact (proj1 (proj2 (C8_recompute_idempotent defaults (pickingEndFrom (jan 1))
                         (Some (jan 3))))
               _ eq_refl eq_refl).
Defined.

(** Every day of the years 2020 and 2021 parses back from its
    [dd/MM/yyyy] text. *)
Lemma days_of_2020_and_2021_round_trip :
  forallb (fun k =>
             let d := UTC.addDays (UTC.utc 2020 1 1) (Z.of_nat k) in
             match parse (format d "dd/MM/yyyy") "dd/MM/yyyy" today with
             | Some d' => d' =? d
             | None => false
             end)
          (seq 0 731) = true.
Proof. vm_compute. reflexivity. Qed.



Lemma jan1_representable : UTC.representable (jan 1).
Proof.
  split; [vm_compute; reflexivity|].
  split; apply Z.leb_le; vm_compute; reflexivity.
Qed.

Lemma jan5_representable : UTC.representable (jan 5).
Proof.
  split; [vm_compute; reflexivity|].
  split; apply Z.leb_le; vm_compute; reflexivity.
Qed.


Lemma C10_witness :
  isNavigationKey "Enter" = false
  /\ focusedDate idle = Some (jan 4)
  /\ focusedDate (run idle (handleKeyDown idle "Enter")) = None.
Proof.
  split; [reflexivity|]. split; [reflexivity|].
  exact (C10_other_key_clears_focus idle "Enter" (jan 4) eq_refl eq_refl).
Defined.

End OnTheReferenceCalendar.

(* ------------------------------------------------------------------ *)
(** * Further properties of the hook *)

Lemma run_cons s e calls : run s (e :: calls) = run (apply_effect s e) calls.
Proof. reflexivity. Qed.

Lemma firstMatch_sound rules r :
  firstMatch rules = Some r -> In (true, r) rules.
Proof.
  induction rules as [|[c r'] rules IH]; simpl; [discriminate|].
  destruct c; intros H; [injection H as ->; left; reflexivity | right; auto].
Qed.

Ltac case_ifs :=
  repeat match goal with
         | |- context [if ?c then _ else _] =>
             match type of c with bool => destruct c eqn:?; simpl end
         end.

Section FurtherProperties.

Context {DF : DateFns}.
Context {TPickerMonthPadding : Type}.
Variable getPickerMonths : GetPickerMonthsArgs TPickerMonthPadding -> list TPickerMonth.
Variable getNextActiveMonth :
  list TPickerMonth -> Z -> Z -> option TPickerMonthPadding -> list TPickerMonth.
Variable validateDates : ValidateDatesArgs -> bool.
Variable props : UseDatePickerProps TPickerMonthPadding.

Local Abbreviation select := (onDateSelect getPickerMonths validateDates props).
Local Abbreviation click := (onDateClick getPickerMonths validateDates props).
Local Abbreviation valid := (commitIsValid validateDates props).

(** ** The state a commit attempt leaves *)

(** Every slice after the calls of [onDateSelect], queued behind
    pending state [s] by a handler that captured [st]. *)
Lemma onDateSelect_outcome s st range sync :
  run s (select st range sync) =
    if valid range
    then mkState (if rebuildsWindow st range
                  then rebuiltWindow props getPickerMonths range
                  else activeMonths s)
                 (hoveredDate s) (focusedDate s) (nextSelection st range) range
                 (if sync then getInputValuesFromRange props range
                  else currentInputValues s)
                 (potentialRange s)
    else s.
Proof.
  unfold onDateSelect, rebuildsWindow, rebuiltWindow, nextSelection.
  destruct (valid range); [|reflexivity].
  destruct s.
  destruct ((negb (isMonthVisible st (dr_start range))
               && ActiveSelection.eqb (activeSelection st) ActiveSelection.start)
            || (negb (isMonthVisible st (dr_end range))
                  && ActiveSelection.eqb (activeSelection st) ActiveSelection.end_)),
    sync,
    (ActiveSelection.eqb (activeSelection st) ActiveSelection.end_
       && is_some (dr_start range));
    reflexivity.
Qed.

Lemma onDateSelect_notified st range sync :
  notified (select st range sync) =
    if valid range
    then [ mkOnDatesChangeProps (dr_start range) (dr_end range) ]
    else [].
Proof.
  destruct (valid range) eqn:Hv.
  - destruct (onDateSelect_accepted getPickerMonths validateDates props st range sync Hv)
      as (rebuild & resync & next & Hcalls & Hn1 & Hn2 & _).
    rewrite Hcalls, !notified_app, Hn1, Hn2. reflexivity.
  - unfold onDateSelect. rewrite Hv. reflexivity.
Qed.

Lemma onDateClick_outcome st date :
  run st (click st date) =
    run (match activeSelection st with
         | ActiveSelection.none => apply_effect st (setActiveSelection ActiveSelection.start)
         | _ => st
         end)
        (select st (clickedRange st date) true).
Proof. unfold onDateClick, clickedRange. destruct (activeSelection st); reflexivity. Qed.

(** X1: an accepted commit never leaves the active selection on the
    start: it moves to [none] exactly when the handler captured the
    selection on the end and the committed range has a start, and to the
    end in every other case. *)
Theorem X1_commit_moves_selection s st range sync :
  valid range = true ->
  let selection := activeSelection (run s (select st range sync)) in
  selection <> ActiveSelection.start
  /\ (selection = ActiveSelection.none <->
      activeSelection st = ActiveSelection.end_ /\ dr_start range <> None)
  /\ (selection <> ActiveSelection.none -> selection = ActiveSelection.end_).
Proof.
  intros Hv selection. subst selection.
  rewrite onDateSelect_outcome, Hv. simpl. unfold nextSelection.
  destruct (activeSelection st), (dr_start range); simpl;
    repeat split; try congruence; try tauto;
    try (intros [? ?]; congruence).
Qed.

(** X2: a click recomputes the active months only when its range is
    accepted, the handler captured the selection on an endpoint, and the
    month of the clicked date is not among the active months; a click
    while the selection is [none] never does. *)
Theorem X2_click_rebuilds_window_only_off_screen st date :
  activeMonths (run st (click st date)) =
    if valid (clickedRange st date)
       && negb (ActiveSelection.eqb (activeSelection st) ActiveSelection.none)
       && negb (isMonthVisible st (Some date))
    then rebuiltWindow props getPickerMonths (clickedRange st date)
    else activeMonths st.
Proof.
  rewrite onDateClick_outcome, onDateSelect_outcome.
  unfold rebuildsWindow, clickedRange.
  destruct (activeSelection st) eqn:Hsel;
    cbn [dr_start dr_end ActiveSelection.eqb negb andb orb];
    match goal with |- context [valid ?r] => destruct (valid r) end;
    cbn [negb andb orb]; try reflexivity;
    rewrite ?andb_true_r, ?andb_false_r, ?orb_false_r, ?orb_false_l;
    destruct (isMonthVisible st (Some date)); reflexivity.
Qed.

(** X3: after a click the input texts and the committed range agree
    with each other whenever the click is accepted (the texts are the
    formatted new range); a rejected click changes neither. *)
Theorem X3_click_keeps_text_in_step st date :
  let st' := run st (click st date) in
  if valid (clickedRange st date)
  then dateRange st' = clickedRange st date
       /\ currentInputValues st' = getInputValuesFromRange props (dateRange st')
  else dateRange st' = dateRange st
       /\ currentInputValues st' = currentInputValues st.
Proof.
  intros st'. subst st'. rewrite onDateClick_outcome, onDateSelect_outcome.
  destruct (valid (clickedRange st date)); destruct (activeSelection st);
    split; reflexivity.
Qed.

(** ** Text input *)

Lemma onChange_outcome st type value now :
  run st (onChange getPickerMonths validateDates props st type value now) =
    let typed := apply_effect st (setCurrentInputValues (typedInto st type value)) in
    match parse value (inputFormat props) now with
    | None => typed
    | Some date =>
        run typed
            (select st
               (if ActiveSelection.eqb type ActiveSelection.start
                then mkDateRange (Some date) (dr_end (dateRange st))
                else mkDateRange (dr_start (dateRange st)) (Some date))
               false)
    end.
Proof.
  unfold onChange, typedInto. rewrite run_cons. cbv zeta.
  destruct (parse value (inputFormat props) now) as [date|]; simpl; [|reflexivity].
  destruct (ActiveSelection.eqb type ActiveSelection.start); reflexivity.
Qed.

(** X4: whatever is typed into a field is what the field holds after
    the change, whether or not the text parses and whether or not the
    parsed date is accepted: an accepted date does not reformat the
    text, and the other field keeps its text. *)
Theorem X4_typed_text_is_stored_verbatim st type value now :
  currentInputValues
    (run st (onChange getPickerMonths validateDates props st type value now))
  = typedInto st type value.
Proof.
  rewrite onChange_outcome. cbv zeta.
  destruct (parse value (inputFormat props) now) as [date|]; [|reflexivity].
  rewrite onDateSelect_outcome.
  match goal with |- context [valid ?r] => destruct (valid r) end; reflexivity.
Qed.

(** X5: a text that does not parse never reaches the commit path: the
    committed range, the active selection and the active months stay,
    the caller is not notified; and the blur handler of the next render
    puts the formatted committed range back into both fields. *)
Theorem X5_unparseable_text_heals_on_blur st type value now :
  parse value (inputFormat props) now = None ->
  let calls := onChange getPickerMonths validateDates props st type value now in
  let st' := run st calls in
  notified calls = []
  /\ dateRange st' = dateRange st
  /\ activeSelection st' = activeSelection st
  /\ activeMonths st' = activeMonths st
  /\ currentInputValues (run st' (onBlur props st'))
       = getInputValuesFromRange props (dateRange st).
Proof.
  intros Hparse calls st'. subst st' calls.
  rewrite onChange_outcome, Hparse. cbv zeta.
  unfold onChange. rewrite Hparse. repeat split.
Qed.

(** ** Sequences of clicks *)

(** X6: starting with the selection on the start and no end committed,
    two accepted clicks complete a range: the first commits its date as
    the start and moves the selection to the end, the second commits its
    date as the end and moves the selection to [none]; the caller is
    notified once per click; afterwards no hovered date forms a
    preview. *)
Theorem X6_two_clicks_complete_a_range st d1 d2 :
  activeSelection st = ActiveSelection.start ->
  dr_end (dateRange st) = None ->
  valid (mkDateRange (Some d1) None) = true ->
  valid (mkDateRange (Some d1) (Some d2)) = true ->
  let st1 := run st (click st d1) in
  let st2 := run st1 (click st1 d2) in
  (dateRange st1 = mkDateRange (Some d1) None
   /\ activeSelection st1 = ActiveSelection.end_)
  /\ (dateRange st2 = mkDateRange (Some d1) (Some d2)
      /\ activeSelection st2 = ActiveSelection.none)
  /\ notified (click st d1) ++ notified (click st1 d2)
     = [ mkOnDatesChangeProps (Some d1) None;
         mkOnDatesChangeProps (Some d1) (Some d2) ]
  /\ (forall hovered,
        potentialRange (run st2 (calculatePotentialRange props st2 hovered)) = None).
Proof.
  intros Hsel Hend Hv1 Hv2 st1 st2.
  assert (H1 : dateRange st1 = mkDateRange (Some d1) None
               /\ activeSelection st1 = ActiveSelection.end_).
  { subst st1. rewrite onDateClick_outcome, onDateSelect_outcome.
    unfold clickedRange, nextSelection. rewrite Hsel, Hend, Hv1. split; reflexivity. }
  destruct H1 as [Hr1 Hs1].
  assert (H2 : dateRange st2 = mkDateRange (Some d1) (Some d2)
               /\ activeSelection st2 = ActiveSelection.none).
  { subst st2. rewrite onDateClick_outcome, onDateSelect_outcome.
    unfold clickedRange, nextSelection. rewrite Hs1, Hr1. simpl. rewrite Hv2.
    split; reflexivity. }
  destruct H2 as [Hr2 Hs2].
  repeat split; auto.
  - assert (N1 : notified (click st d1) = [ mkOnDatesChangeProps (Some d1) None ]).
    { unfold onDateClick. rewrite Hsel, Hend, onDateSelect_notified, Hv1.
      reflexivity. }
    assert (N2 : notified (click st1 d2)
                 = [ mkOnDatesChangeProps (Some d1) (Some d2) ]).
    { unfold onDateClick. rewrite Hs1, Hr1. simpl dr_start.
      rewrite onDateSelect_notified, Hv2. reflexivity. }
    rewrite N1, N2. reflexivity.
  - intros hovered. destruct hovered as [date|]; [|reflexivity].
    rewrite calculatePotentialRange_value. unfold hoverBeyondEndpoint.
    rewrite Hs2. reflexivity.
Qed.

(** X7: when the end is targeted while no start is committed, an
    accepted click commits its date as the end and leaves the selection
    on the end; no hovered date forms a preview afterwards, so the start
    cannot be reached by clicking. *)
Theorem X7_end_first_stays_on_end st date :
  activeSelection st = ActiveSelection.end_ ->
  dr_start (dateRange st) = None ->
  valid (mkDateRange None (Some date)) = true ->
  let st' := run st (click st date) in
  dateRange st' = mkDateRange None (Some date)
  /\ activeSelection st' = ActiveSelection.end_
  /\ (forall hovered,
        potentialRange (run st' (calculatePotentialRange props st' hovered)) = None).
Proof.
  intros Hsel Hstart Hv st'.
  assert (H : dateRange st' = mkDateRange None (Some date)
              /\ activeSelection st' = ActiveSelection.end_).
  { subst st'. rewrite onDateClick_outcome, onDateSelect_outcome.
    unfold clickedRange, nextSelection. rewrite Hsel, Hstart, Hv. split; reflexivity. }
  destruct H as [Hr Hs]. repeat split; auto.
  intros [hovered|]; [|reflexivity].
  rewrite calculatePotentialRange_value. unfold hoverBeyondEndpoint.
  rewrite Hs, Hr. reflexivity.
Qed.

(** X12: [fixRange] is no rule of the commit path: with any other
    [fixRange], a click and a typed text make the same calls. *)
Theorem X12_fix_range_is_not_a_commit_rule fr st date type value now :
  onDateClick getPickerMonths validateDates (withFixRange props fr) st date
    = click st date
  /\ onChange getPickerMonths validateDates (withFixRange props fr) st type value now
     = onChange getPickerMonths validateDates props st type value now.
Proof. split; reflexivity. Qed.

(** ** Hover preview, continued *)

(** X8: a preview that [calculatePotentialRange] stores spans an
    interval whose start is strictly before its end, one end being the
    hovered date; the hovered date lies within the stored preview, a
    date before the start or after the end does not. *)
Theorem X8_stored_preview_is_well_formed st date r :
  let st' := run st (calculatePotentialRange props st (Some date)) in
  potentialRange st' = Some r ->
  iv_start (pr_range r) < iv_end (pr_range r)
  /\ (iv_start (pr_range r) = date \/ iv_end (pr_range r) = date)
  /\ isWithinPotentialRange st' date = Some true
  /\ (forall d, d < iv_start (pr_range r) \/ iv_end (pr_range r) < d ->
                isWithinPotentialRange st' d = Some false).
Proof.
  intros st' Hr.
  assert (Hform : (exists s, s < date /\ pr_range r = mkInterval s date)
                  \/ (exists e, date < e /\ pr_range r = mkInterval date e)).
  { subst st'. rewrite calculatePotentialRange_value in Hr.
    unfold hoverBeyondEndpoint, previewInterval in Hr.
    destruct (activeSelection st); [right | left | discriminate].
    - destruct (dr_end (dateRange st)) as [e|]; [|discriminate].
      destruct (date <? e) eqn:Hlt; [|discriminate].
      exists e. apply Z.ltb_lt in Hlt. injection Hr as <-. simpl.
      destruct (dr_start (dateRange st)); auto.
    - destruct (dr_start (dateRange st)) as [s|]; [|discriminate].
      destruct (s <? date) eqn:Hlt; [|discriminate].
      exists s. apply Z.ltb_lt in Hlt. injection Hr as <-. auto. }
  unfold isWithinPotentialRange. rewrite Hr. unfold isWithinInterval.
  destruct Hform as [(s & Hlt & ->) | (e & Hlt & ->)]; simpl; repeat split;
    try lia; auto.
  - f_equal. apply andb_true_iff. split; apply Z.leb_le; lia.
  - intros d Hd. f_equal. apply andb_false_iff.
    destruct Hd; [left | right]; apply Z.leb_gt; lia.
  - f_equal. apply andb_true_iff. split; apply Z.leb_le; lia.
  - intros d Hd. f_equal. apply andb_false_iff.
    destruct Hd; [left | right]; apply Z.leb_gt; lia.
Qed.

Lemma rangeError_first_match range :
  rangeError props range = firstMatch (previewRules props range).
Proof.
  unfold rangeError, previewRules, belowMinRange, aboveMaxRange, containsBlockedDate.
  destruct (minDateRange props) as [lo|], (maxDateRange props) as [hi|];
    simpl; case_ifs; reflexivity.
Qed.

(** X9: the error stored with a preview is the first match of three
    rules in order: the end is not after the start plus [minDateRange];
    the end is after the start plus [maxDateRange]; no day of the
    interval is unavailable.  A preview has no error exactly when it
    passes both limits and contains an unavailable day. *)
Theorem X9_preview_error_is_first_match st date r :
  potentialRange (run st (calculatePotentialRange props st (Some date))) = Some r ->
  pr_error r = error_of (firstMatch (previewRules props (pr_range r)))
  /\ (pr_error r = None <->
      passesRangeLimits props (pr_range r) = true
      /\ containsBlockedDate props (pr_range r) = true).
Proof.
  intros Hr. rewrite calculatePotentialRange_value in Hr.
  destruct (hoverBeyondEndpoint st date); [|discriminate].
  injection Hr as <-. simpl. rewrite rangeError_first_match. split; [reflexivity|].
  unfold previewRules, passesRangeLimits, belowMinRange, aboveMaxRange.
  destruct (minDateRange props) as [lo|], (maxDateRange props) as [hi|]; simpl;
    repeat match goal with
           | |- context [isAfter ?x ?y] => destruct (isAfter x y)
           end;
    destruct (containsBlockedDate props (previewInterval st date)); simpl;
    (split; [intros H; try discriminate H; auto
            | intros [H1 H2]; try discriminate H1; try discriminate H2; auto]).
Qed.

(** X10: with the default, empty list of unavailable dates, every
    preview the hook stores carries an error. *)
Theorem X10_no_unavailable_date_means_every_preview_errs st date r :
  unavailableDates props = UnavailableList [] ->
  potentialRange (run st (calculatePotentialRange props st (Some date))) = Some r ->
  exists why, pr_error r = Some (mkError why)
              /\ (belowMinRange props (pr_range r) = false ->
                  aboveMaxRange props (pr_range r) = false ->
                  why = CONTAINS_BLOCKED_DATE).
Proof.
  intros Hnone Hr. rewrite calculatePotentialRange_value in Hr.
  destruct (hoverBeyondEndpoint st date); [|discriminate].
  injection Hr as <-. simpl.
  rewrite rangeError_first_match. unfold previewRules.
  assert (Hfree : containsBlockedDate props (previewInterval st date) = false).
  { unfold containsBlockedDate.
    assert (Hd : forall d, isDisabled props d = false).
    { intros d. unfold isDisabled. rewrite Hnone. reflexivity. }
    induction (eachDayOfInterval (previewInterval st date)) as [|d l IH];
      simpl; [reflexivity|]. rewrite Hd. exact IH. }
  rewrite Hfree.
  destruct (belowMinRange props (previewInterval st date)),
    (aboveMaxRange props (previewInterval st date)); simpl;
    eexists; (split; [reflexivity|]); intros; congruence.
Qed.

(** ** Hover classification, continued *)

(** X11: the three bounds of the hover classification are inclusive:
    the day before [minDate] is not [LESS_THAN_MIN_DATE], [maxDate]
    itself is not [GREATER_THAN_MAX_DATE], and with only a start
    committed the start plus [fixRange] is not [VIOLATES_FIX_RANGE]. *)
Theorem X11_hover_bounds_are_inclusive st :
  (forall m, minDate props = Some m ->
             hoverError props st (addDays m (-1)) <> Some LESS_THAN_MIN_DATE)
  /\ (forall x, maxDate props = Some x ->
                hoverError props st x <> Some GREATER_THAN_MAX_DATE)
  /\ (forall fr s, fixRange props = Some fr ->
                   dateRange st = mkDateRange (Some s) None ->
                   hoverError props st (add s fr) <> Some VIOLATES_FIX_RANGE).
Proof.
  repeat split.
  - intros m Hm H. rewrite hoverError_first_match in H.
    apply firstMatch_sound in H. unfold rulesInHookOrder in H. simpl in H.
    destruct H as [H | [H | [H | [H | []]]]]; try discriminate H.
    injection H as H. unfold lessThanMinDate, isBefore in H.
    rewrite Hm, Z.ltb_irrefl in H. discriminate H.
  - intros x Hx H. rewrite hoverError_first_match in H.
    apply firstMatch_sound in H. unfold rulesInHookOrder in H. simpl in H.
    destruct H as [H | [H | [H | [H | []]]]]; try discriminate H.
    injection H as H. unfold greaterThanMaxDate, isAfter in H.
    rewrite Hx, Z.ltb_irrefl in H. discriminate H.
  - intros fr s Hfr Hrange H. rewrite hoverError_first_match in H.
    apply firstMatch_sound in H. unfold rulesInHookOrder in H. simpl in H.
    destruct H as [H | [H | [H | [H | []]]]]; try discriminate H.
    injection H as H. unfold afterFixRange, isAfter in H.
    rewrite Hfr, Hrange in H. simpl in H.
    rewrite Z.ltb_irrefl in H. discriminate H.
Qed.

(** ** Keyboard, continued *)

(** X17: while a date has keyboard focus, a delivered key-down keeps a
    date focused exactly when its key is one of the six navigation
    keys. *)
Theorem X17_focus_survives_exactly_navigation_keys st key d :
  focusedDate st = Some d ->
  (focusedDate (run st (handleKeyDown st key)) = None <-> isNavigationKey key = false).
Proof.
  intros Hfocus. simpl. rewrite Hfocus.
  unfold keyDownUpdater, isNavigationKey, navigationKeys. simpl.
  destruct (String.eqb key "ArrowRight"), (String.eqb key "ArrowLeft"),
    (String.eqb key "ArrowUp"), (String.eqb key "ArrowDown"),
    (String.eqb key "PageUp"), (String.eqb key "PageDown");
    simpl; split; congruence.
Qed.

(** X13: when a date has keyboard focus and some active month is not
    padding, the effect that follows the focus finds its two boundary
    months (no [TypeError]), notifies nobody and leaves the committed
    range and the selection alone; it
    writes the formatted focused date into the field of the targeted
    endpoint and the empty text into the other field, and writes
    nothing when no endpoint is targeted. *)
Theorem X13_focus_previews_into_targeted_field st f :
  focusedDate st = Some f ->
  selectableMonths st <> [] ->
  exists calls,
    focusedDateEffect getNextActiveMonth props st = Some calls
    /\ notified calls = []
    /\ dateRange (run st calls) = dateRange st
    /\ activeSelection (run st calls) = activeSelection st
    /\ currentInputValues (run st calls) =
         match activeSelection st with
         | ActiveSelection.start =>
             mkInputValues (format f (inputFormat props)) EmptyString
         | ActiveSelection.end_ =>
             mkInputValues EmptyString (format f (inputFormat props))
         | ActiveSelection.none => currentInputValues st
         end.
Proof.
  intros Hfocus Hmonths. unfold focusedDateEffect, selectableMonths in *.
  rewrite Hfocus.
  destruct (filter (fun m => negb (isPadding m)) (activeMonths st)) as [|first rest];
    [congruence|].
  eexists. split; [reflexivity|].
  destruct (f <? month_date (month first)),
    (f >? month_date (month (last (first :: rest) first))),
    (activeSelection st) eqn:Hsel; repeat split; simpl; auto.
Qed.

(** X14: the first delivered key-down, whatever its key, focuses the
    date of the first active month that is not padding, or nothing when
    there is none; the effect that follows finds its two boundary
    months (no [TypeError]) and does not move the active months
    backward. *)
Theorem X14_first_key_down_is_safe st key :
  focusedDate st = None ->
  let st1 := run st (handleKeyDown st key) in
  focusedDate st1 =
    match selectableMonths st with
    | m :: _ => Some (month_date (month m))
    | [] => None
    end
  /\ exists calls,
       focusedDateEffect getNextActiveMonth props st1 = Some calls
       /\ (activeMonths (run st1 calls) = activeMonths st
           \/ activeMonths (run st1 calls) =
                getNextActiveMonth (activeMonths st) 1
                  (firstDayOfWeek props) (padding props)).
Proof.
  intros Hfocus st1. subst st1. simpl. rewrite Hfocus.
  unfold focusedDateEffect, selectableMonths, keyDownUpdater. simpl.
  destruct (filter (fun m => negb (isPadding m)) (activeMonths st)) as [|first rest];
    split; try reflexivity.
  - eexists. split; [reflexivity|]. left. reflexivity.
  - rewrite Z.ltb_irrefl. eexists. split; [reflexivity|].
    destruct (month_date (month first)
              >? month_date (month (last (first :: rest) first)));
      destruct (activeSelection st); simpl; auto.
Qed.

(** X15: a jump to a date drops the keyboard focus: no date is focused
    afterwards, the effect that follows the focus makes no call, and the
    next delivered key-down focuses the first non-padding month of the
    window built for the jump. *)
Theorem X15_jump_drops_focus st date key :
  let st1 := run st (goToDate getPickerMonths props date) in
  (forall d, isDateFocused st1 d = false)
  /\ focusedDateEffect getNextActiveMonth props st1 = Some []
  /\ focusedDate (run st1 (handleKeyDown st1 key)) =
       match selectableMonths st1 with
       | m :: _ => Some (month_date (month m))
       | [] => None
       end
  /\ activeMonths st1 =
       getPickerMonths
         (mkGetPickerMonthsArgs TPickerMonthPadding
            (numberOfMonths props) (firstDayOfWeek props) (Some date) None None).
Proof. repeat split. Qed.

(** X16: resetting the dates empties the committed range without
    notifying the caller, without moving the selection and without
    touching the input texts; afterwards no date is the start or the
    end, no hovered date forms a preview, and a blur empties both
    fields. *)
Theorem X16_reset_is_silent st hovered :
  let st1 := run st reset in
  notified reset = []
  /\ dateRange st1 = mkDateRange None None
  /\ activeSelection st1 = activeSelection st
  /\ currentInputValues st1 = currentInputValues st
  /\ (forall d, isStartDate st1 d = false /\ isEndDate st1 d = false)
  /\ potentialRange (run st1 (calculatePotentialRange props st1 hovered)) = None
  /\ currentInputValues (run st1 (onBlur props st1))
     = mkInputValues EmptyString EmptyString.
Proof.
  repeat split.
  destruct hovered as [date|]; [|reflexivity]. simpl.
  destruct (activeSelection st); reflexivity.
Qed.

(** ** Fields and pointer *)

(** X18: a click into the start field followed by an accepted click on
    a date replaces the start and keeps the committed end, and the
    selection moves to the end. *)
Theorem X18_editing_the_start_keeps_the_end st date :
  valid (mkDateRange (Some date) (dr_end (dateRange st))) = true ->
  let st1 := run st (onInputClick ActiveSelection.start) in
  let st2 := run st1 (click st1 date) in
  dateRange st2 = mkDateRange (Some date) (dr_end (dateRange st))
  /\ activeSelection st2 = ActiveSelection.end_.
Proof.
  intros Hv st1 st2. subst st2 st1.
  rewrite onDateClick_outcome, onDateSelect_outcome.
  unfold clickedRange. simpl. rewrite Hv. split; reflexivity.
Qed.

(** X19: the preview follows the pointer: after the pointer enters a
    date, the effect that follows the hovered date stores the preview of
    that date, whatever error the hovered date itself carries; after the
    pointer leaves, it stores [undefined]; neither touches the committed
    range or the selection. *)
Theorem X19_preview_follows_the_pointer st date :
  let entered := run st (onDateHover props st date) in
  let left := run entered onMouseLeave in
  let afterEnter := run entered (hoveredDateEffect props entered) in
  let afterLeave := run left (hoveredDateEffect props left) in
  (potentialRange afterEnter
     = potentialRange (run st (calculatePotentialRange props st (Some date)))
   /\ dateRange afterEnter = dateRange st
   /\ activeSelection afterEnter = activeSelection st)
  /\ (potentialRange afterLeave = None
      /\ dateRange afterLeave = dateRange st
      /\ activeSelection afterLeave = activeSelection st).
Proof.
  intros entered left afterEnter afterLeave.
  subst afterLeave afterEnter left entered.
  split; [|repeat split].
  unfold hoveredDateEffect. simpl hoveredDate. cbv iota beta. simpl hd_date.
  match goal with
  | |- context [calculatePotentialRange props ?s (Some date)] =>
      rewrite (calculatePotentialRange_reads props st s (Some date) eq_refl eq_refl)
  end.
  destruct (calculatePotentialRange_single props st (Some date)) as [p Hp].
  rewrite Hp. repeat split.
Qed.

End FurtherProperties.

(* ------------------------------------------------------------------ *)
(** * The further properties on the reference calendar *)

Section FurtherOnTheReferenceCalendar.

#[local] Existing Instance UTC.dateFns.

Import Example.

(** The end committed on 5 January after a start on 1 January. *)
Lemma X1_witness :
  let range := mkDateRange (Some (jan 1)) (Some (jan 5)) in
  let st := pickingEndFrom (jan 1) in
  commitIsValid validateDatesSpec defaults range = true
  /\ activeSelection
       (run st (onDateSelect getPickerMonths validateDatesSpec defaults st range true))
     = ActiveSelection.none.
Proof.
  cbv zeta.
  assert (Hv : commitIsValid validateDatesSpec defaults
                 (mkDateRange (Some (jan 1)) (Some (jan 5))) = true)
    by (vm_compute; reflexivity).
  split; [exact Hv|].
  apply (proj1 (proj2 (X1_commit_moves_selection getPickerMonths validateDatesSpec
                         defaults (pickingEndFrom (jan 1)) (pickingEndFrom (jan 1))
                         (mkDateRange (Some (jan 1)) (Some (jan 5))) true Hv))).
  split; [reflexivity | discriminate].
Defined.

(** Letters typed into the end field, then a blur. *)
Lemma X5_witness :
  let st := pickingEndFrom (jan 1) in
  let calls := onChange getPickerMonths validateDatesSpec defaults st
                 ActiveSelection.end_ "abc" today in
  let st' := run st calls in
  parse "abc" (inputFormat defaults) today = None
  /\ currentInputValues st' = mkInputValues "01/01/2021" "abc"
  /\ notified calls = []
  /\ dateRange st' = dateRange st
  /\ activeSelection st' = activeSelection st
  /\ activeMonths st' = activeMonths st
  /\ currentInputValues (run st' (onBlur defaults st'))
     = mkInputValues "01/01/2021" EmptyString.
Proof.
  cbv zeta. split; [reflexivity|]. split; [reflexivity|].
  exact (X5_unparseable_text_heals_on_blur getPickerMonths validateDatesSpec defaults
           (pickingEndFrom (jan 1)) ActiveSelection.end_ "abc" today eq_refl).
Defined.

(** 1 January, then 5 January, clicked on a freshly mounted picker. *)
Lemma X6_witness :
  let st := initialState defaults in
  let st1 := run st (onDateClick getPickerMonths validateDatesSpec defaults st (jan 1)) in
  let st2 := run st1 (onDateClick getPickerMonths validateDatesSpec defaults st1 (jan 5)) in
  (activeSelection st = ActiveSelection.start
   /\ dr_end (dateRange st) = None
   /\ commitIsValid validateDatesSpec defaults (mkDateRange (Some (jan 1)) None) = true
   /\ commitIsValid validateDatesSpec defaults
        (mkDateRange (Some (jan 1)) (Some (jan 5))) = true)
  /\ dateRange st2 = mkDateRange (Some (jan 1)) (Some (jan 5))
  /\ activeSelection st2 = ActiveSelection.none.
Proof.
  cbv zeta.
  assert (Hv : commitIsValid validateDatesSpec defaults
                 (mkDateRange (Some (jan 1)) (Some (jan 5))) = true)
    by (vm_compute; reflexivity).
  split; [repeat split; exact Hv|].
  exact (proj1 (proj2 (X6_two_clicks_complete_a_range getPickerMonths validateDatesSpec
                         defaults (initialState defaults) (jan 1) (jan 5)
                         eq_refl eq_refl eq_refl Hv))).
Defined.

Lemma X7_witness :
  let st' := run endFirst
               (onDateClick getPickerMonths validateDatesSpec defaults endFirst (jan 5)) in
  (activeSelection endFirst = ActiveSelection.end_
   /\ dr_start (dateRange endFirst) = None
   /\ commitIsValid validateDatesSpec defaults (mkDateRange None (Some (jan 5))) = true)
  /\ dateRange st' = mkDateRange None (Some (jan 5))
  /\ activeSelection st' = ActiveSelection.end_
  /\ potentialRange (run st' (calculatePotentialRange defaults st' (Some (jan 2)))) = None.
Proof.
  cbv zeta. split; [repeat split|].
  pose proof (X7_end_first_stays_on_end getPickerMonths validateDatesSpec defaults
                endFirst (jan 5) eq_refl eq_refl eq_refl) as H.
  cbv zeta in H. destruct H as (Hr & Hs & Hp).
  split; [exact Hr|]. split; [exact Hs|]. exact (Hp (Some (jan 2))).
Defined.

(** The preview of 3 January hovered after a start on 1 January. *)
Lemma X8_witness :
  let st := pickingEndFrom (jan 1) in
  let st' := run st (calculatePotentialRange defaults st (Some (jan 3))) in
  let r := mkPotential (mkInterval (jan 1) (jan 3))
                       (Some (mkError CONTAINS_BLOCKED_DATE)) in
  potentialRange st' = Some r
  /\ iv_start (pr_range r) < iv_end (pr_range r)
  /\ (iv_start (pr_range r) = jan 3 \/ iv_end (pr_range r) = jan 3)
  /\ isWithinPotentialRange st' (jan 3) = Some true
  /\ (forall d, d < iv_start (pr_range r) \/ iv_end (pr_range r) < d ->
                isWithinPotentialRange st' d = Some false).
Proof.
  cbv zeta. split; [reflexivity|].
  exact (X8_stored_preview_is_well_formed defaults (pickingEndFrom (jan 1)) (jan 3)
           _ eq_refl).
Defined.

Lemma X9_witness :
  let st := pickingEndFrom (jan 1) in
  let r := mkPotential (mkInterval (jan 1) (jan 3))
                       (Some (mkError CONTAINS_BLOCKED_DATE)) in
  potentialRange (run st (calculatePotentialRange defaults st (Some (jan 3)))) = Some r
  /\ pr_error r = error_of (firstMatch (previewRules defaults (pr_range r))).
Proof.
  cbv zeta. split; [reflexivity|].
  exact (proj1 (X9_preview_error_is_first_match defaults (pickingEndFrom (jan 1))
                  (jan 3) _ eq_refl)).
Defined.

Lemma X10_witness :
  let st := pickingEndFrom (jan 1) in
  let r := mkPotential (mkInterval (jan 1) (jan 3))
                       (Some (mkError CONTAINS_BLOCKED_DATE)) in
  (unavailableDates defaults = UnavailableList []
   /\ potentialRange (run st (calculatePotentialRange defaults st (Some (jan 3))))
      = Some r)
  /\ exists why, pr_error r = Some (mkError why)
                 /\ (belowMinRange defaults (pr_range r) = false ->
                     aboveMaxRange defaults (pr_range r) = false ->
                     why = CONTAINS_BLOCKED_DATE).
Proof.
  cbv zeta. split; [split; reflexivity|].
  exact (X10_no_unavailable_date_means_every_preview_errs defaults
           (pickingEndFrom (jan 1)) (jan 3) _ eq_refl eq_refl).
Defined.

(** A maximum date of 10 January, a fixed range of two days and a start
    on 1 January: the day before the minimum date, 10 January and
    3 January are on the three bounds. *)
Lemma X11_witness :
  let props := configure None (Some (jan 10)) (Some twoDays) [] in
  let st := pickingEndFrom (jan 1) in
  (maxDate props = Some (jan 10)
   /\ fixRange props = Some twoDays
   /\ dateRange st = mkDateRange (Some (jan 1)) None
   /\ add (jan 1) twoDays = jan 3)
  /\ hoverError props st (jan 10) <> Some GREATER_THAN_MAX_DATE
  /\ hoverError props st (add (jan 1) twoDays) <> Some VIOLATES_FIX_RANGE
  /\ (forall m, minDate props = Some m ->
                hoverError props st (addDays m (-1)) <> Some LESS_THAN_MIN_DATE).
Proof.
  cbv zeta. split; [repeat split|].
  pose proof (X11_hover_bounds_are_inclusive
                (configure None (Some (jan 10)) (Some twoDays) [])
                (pickingEndFrom (jan 1))) as (Hmin & Hmax & Hfix).
  split; [exact (Hmax (jan 10) eq_refl)|].
  split; [exact (Hfix twoDays (jan 1) eq_refl eq_refl)|]. exact Hmin.
Defined.

Lemma selectable_focusedWhilePickingEnd :
  selectableMonths focusedWhilePickingEnd <> [].
Proof. vm_compute. discriminate. Defined.

(** 4 January focused while the end is picked: the start field is
    blanked although 1 January is committed. *)
Lemma X13_witness :
  (focusedDate focusedWhilePickingEnd = Some (jan 4)
   /\ selectableMonths focusedWhilePickingEnd <> [])
  /\ exists calls,
       focusedDateEffect getNextActiveMonth defaults focusedWhilePickingEnd = Some calls
       /\ notified calls = []
       /\ dateRange (run focusedWhilePickingEnd calls) = mkDateRange (Some (jan 1)) None
       /\ activeSelection (run focusedWhilePickingEnd calls) = ActiveSelection.end_
       /\ currentInputValues (run focusedWhilePickingEnd calls)
          = mkInputValues EmptyString "04/01/2021".
Proof.
  split; [split; [reflexivity | exact selectable_focusedWhilePickingEnd]|].
  exact (X13_focus_previews_into_targeted_field getNextActiveMonth defaults
           focusedWhilePickingEnd (jan 4) eq_refl selectable_focusedWhilePickingEnd).
Defined.

Lemma X14_witness :
  let st := pickingEndFrom (jan 1) in
  let st1 := run st (handleKeyDown st "Enter") in
  focusedDate st = None
  /\ focusedDate st1 = Some (jan 1)
  /\ exists calls,
       focusedDateEffect getNextActiveMonth defaults st1 = Some calls
       /\ (activeMonths (run st1 calls) = activeMonths st
           \/ activeMonths (run st1 calls) =
                getNextActiveMonth (activeMonths st) 1
                  (firstDayOfWeek defaults) (padding defaults)).
Proof.
  cbv zeta. split; [reflexivity|].
  exact (X14_first_key_down_is_safe getNextActiveMonth defaults
           (pickingEndFrom (jan 1)) "Enter" eq_refl).
Defined.

Lemma X17_witness :
  focusedDate idle = Some (jan 4)
  /\ isNavigationKey "PageDown" = true
  /\ focusedDate (run idle (handleKeyDown idle "PageDown")) = Some (UTC.utc 2021 2 4)
  /\ (focusedDate (run idle (handleKeyDown idle "Escape")) = None
      <-> isNavigationKey "Escape" = false).
Proof.
  split; [reflexivity|]. split; [reflexivity|]. split; [reflexivity|].
  exact (X17_focus_survives_exactly_navigation_keys idle "Escape" (jan 4) eq_refl).
Defined.

(** 1 to 8 January committed; the start field clicked, then 2 January. *)
Lemma X18_witness :
  let st1 := run idle (onInputClick ActiveSelection.start) in
  let st2 := run st1 (onDateClick getPickerMonths validateDatesSpec defaults st1 (jan 2)) in
  commitIsValid validateDatesSpec defaults
    (mkDateRange (Some (jan 2)) (dr_end (dateRange idle))) = true
  /\ dateRange st2 = mkDateRange (Some (jan 2)) (Some (jan 8))
  /\ activeSelection st2 = ActiveSelection.end_.
Proof.
  cbv zeta.
  assert (Hv : commitIsValid validateDatesSpec defaults
                 (mkDateRange (Some (jan 2)) (dr_end (dateRange idle))) = true)
    by (vm_compute; reflexivity).
  split; [exact Hv|].
  exact (X18_editing_the_start_keeps_the_end getPickerMonths validateDatesSpec defaults
           idle (jan 2) Hv).
Defined.

End FurtherOnTheReferenceCalendar.
